(** * Direct-file search and download proxy: a shallow embedding

  The development follows the modules of the application:
  [app/search.py] (link classifier, content-type prober, page link
  extractor, search adapter, candidate pipeline), [app/downloader.py]
  (the streaming download proxy), [app/llm.py] (query enrichment and
  ranking), [app/main.py] (the allowlist and the two routes) and [main.py]
  (the trends service).

  Python [str] values are modelled as [string]; the text handled by the
  program is URL and header text, so characters are bytes and [str.lower]
  acts on the letters A..Z only.  Network and parser calls are oracles of a
  [World]; exceptions are threaded explicitly. *)

From Stdlib Require Import ZArith Ascii String DecimalString Lia.
From stdpp Require Import base tactics option list gmap strings.

Local Open Scope Z_scope.

(** ** Python string methods used by the program *)

Module PyStr.

(** [s.startswith(p)] *)
Definition startswith (s p : string) : bool := String.prefix p s.

(** [s.endswith(suf)] *)
Fixpoint endswith (s suf : string) : bool :=
  if String.eqb s suf then true
  else match s with
       | EmptyString => false
       | String _ s' => endswith s' suf
       end.

(** [s.split(sep)] for a one-character separator: never the empty list. *)
Fixpoint split (sep : ascii) (s : string) : list string :=
  match s with
  | EmptyString => [EmptyString]
  | String c s' =>
      if Ascii.eqb c sep then EmptyString :: split sep s'
      else match split sep s' with
           | [] => [String c EmptyString]
           | p :: ps => String c p :: ps
           end
  end.

(** [l[0]] and [l[-1]] on the result of a split. *)
Definition first (l : list string) : string := hd EmptyString l.
Definition last (l : list string) : string := List.last l EmptyString.

Definition is_upper (c : ascii) : bool :=
  let n := N_of_ascii c in (65 <=? n)%N && (n <=? 90)%N.

Definition lower_ascii (c : ascii) : ascii :=
  if is_upper c then ascii_of_N (N_of_ascii c + 32) else c.

(** [s.lower()] *)
Fixpoint lower (s : string) : string :=
  match s with
  | EmptyString => EmptyString
  | String c s' => String (lower_ascii c) (lower s')
  end.

Fixpoint lstrip (p : ascii -> bool) (s : string) : string :=
  match s with
  | EmptyString => EmptyString
  | String c s' => if p c then lstrip p s' else s
  end.

Fixpoint rstrip (p : ascii -> bool) (s : string) : string :=
  match s with
  | EmptyString => EmptyString
  | String c s' =>
      match rstrip p s' with
      | EmptyString => if p c then EmptyString else String c EmptyString
      | r => String c r
      end
  end.

(** [s.strip(chars)]: both ends. *)
Definition strip_chars (p : ascii -> bool) (s : string) : string :=
  rstrip p (lstrip p s).

Definition is_dot (c : ascii) : bool := Ascii.eqb c "."%char.

(** White space as [str.strip()] sees it on ASCII text. *)
Definition is_space (c : ascii) : bool :=
  let n := N_of_ascii c in
  ((9 <=? n)%N && (n <=? 13)%N) || ((28 <=? n)%N && (n <=? 32)%N).

(** [s.strip()] *)
Definition strip (s : string) : string := strip_chars is_space s.

(** [sep.join(l)] *)
Definition join (sep : string) (l : list string) : string := String.concat sep l.

(** Truthiness of a string: [if s:]. *)
Definition truthy (s : string) : bool := negb (String.eqb s EmptyString).

(** [a or b] on strings. *)
Definition or_else (a b : string) : string := if truthy a then a else b.

End PyStr.

(** ** Exceptions and effects *)

(** Instances of [Exception]: FastAPI's [HTTPException] with its status and
    detail, and any other error by class name and message. *)
Inductive exn : Type :=
| HTTPException (status_code : Z) (detail : string)
| Error (cls : string) (msg : string).

Inductive result (E A : Type) : Type :=
| Ret (a : A)
| Raise (e : E).
Arguments Ret {E A} a.
Arguments Raise {E A} e.

(** Computations over a state [S] that return or raise. *)
Definition M (S E A : Type) : Type := S -> result E A * S.

Definition ret {S E A} (a : A) : M S E A := fun s => (Ret a, s).

Definition raise {S E A} (e : E) : M S E A := fun s => (Raise e, s).

Definition bind {S E A B} (m : M S E A) (k : A -> M S E B) : M S E B :=
  fun s => match m s with
           | (Ret a, s') => k a s'
           | (Raise e, s') => (Raise e, s')
           end.

(** A pure library call that may raise. *)
Definition lift {S E A} (r : result E A) : M S E A := fun s => (r, s).

(** [try: m except <caught>: h] *)
Definition try_except {S E A} (caught : E -> bool) (m : M S E A) (h : E -> M S E A) : M S E A :=
  fun s => match m s with
           | (Ret a, s') => (Ret a, s')
           | (Raise e, s') => if caught e then h e s' else (Raise e, s')
           end.

Notation "x <- m ;; k" := (bind m (fun x => k))
  (at level 100, m at next level, right associativity).

(** ** app/search.py *)

Module Search.
Import PyStr.

Definition ALLOWED_SCHEMES : list string := ["http://"; "https://"].

(** [url.startswith(ALLOWED_SCHEMES)] with a tuple argument. *)
Definition startswith_any (s : string) (ps : list string) : bool :=
  existsb (startswith s) ps.

(** The loop over [preferred_extensions] of [_is_direct_file_url]. *)
Fixpoint any_ext (lowered : string) (preferred_extensions : list string) : bool :=
  match preferred_extensions with
  | [] => false
  | ext :: rest =>
      if endswith lowered ("." +:+ strip_chars is_dot ext) then true
      else any_ext lowered rest
  end.

Definition _is_direct_file_url (url : string) (preferred_extensions : list string) : bool :=
  if negb (truthy url) || negb (startswith_any url ALLOWED_SCHEMES) then false
  else
    let lowered := lower (first (split "?"%char url)) in
    any_ext lowered preferred_extensions.

(** What [requests] hands back: the status, the [Content-Type] header when
    there is one, and the decoded body. *)
Record Response : Type := {
  status_code : Z;
  header_content_type : option string;
  text : string
}.

(** [response.ok] of [requests]: true unless [raise_for_status] would raise,
    which it does for a client error, 400 <= status < 500, and for a server
    error, 500 <= status < 600. *)
Definition ok (r : Response) : bool :=
  negb ((400 <=? status_code r) && (status_code r <? 600)).

(** One result of the search backend; any key may be missing. *)
Record BackendResult : Type := {
  get_title : option string;
  get_href : option string;
  get_body : option string
}.

(** The outside of the module.  Network calls are indexed by the number of
    calls made before them in the run, so that the same request may be
    answered differently at different times; parsing and URL joining are
    functions of their arguments.  Every one of them may raise. *)
Record World : Type := {
  ddgs_text : nat -> string -> Z -> result exn (list BackendResult);
  requests_head : nat -> string -> result exn Response;
  requests_get : nat -> string -> result exn Response;
  find_all_a_href : string -> result exn (list string);
  urljoin : string -> string -> result exn string
}.

(** State of a run: the number of network calls made so far. *)
Definition IO (A : Type) : Type := M nat exn A.

Definition call {A} (oracle : nat -> result exn A) : IO A :=
  fun t => (oracle t, S t).

(** [except Exception] in this module catches every error of the model. *)
Definition Exception (e : exn) : bool := true.

Definition _head_content_type (w : World) (url : string) : IO (option string) :=
  try_except Exception
    (response <- call (fun t => requests_head w t url) ;;
     match header_content_type response with
     | Some ctype =>
         if truthy ctype
         then ret (Some (lower (strip (first (split ";"%char ctype)))))
         else ret None
     | None => ret None
     end)
    (fun _ => ret None).

(** The loop of [_extract_links_from_page] over the anchors' targets. *)
Fixpoint absolute_links_loop (w : World) (url : string) (links : list string)
    (absolute_links : list string) : IO (list string) :=
  match links with
  | [] => ret absolute_links
  | href :: rest =>
      if startswith href "http://" || startswith href "https://" then
        absolute_links_loop w url rest (absolute_links ++ [href])
      else if startswith href "//" then
        absolute_links_loop w url rest (absolute_links ++ ["https:" +:+ href])
      else if startswith href "/" then
        (absolute_links' <-
           try_except Exception
             (joined <- lift (urljoin w url href) ;;
              ret (absolute_links ++ [joined]))
             (fun _ => ret absolute_links) ;;
         absolute_links_loop w url rest absolute_links')
      else absolute_links_loop w url rest absolute_links
  end.

Definition _extract_links_from_page (w : World) (url : string) : IO (list string) :=
  try_except Exception
    (response <- call (fun t => requests_get w t url) ;;
     if negb (ok response) then ret []
     else
       (links <- lift (find_all_a_href w (text response)) ;;
        absolute_links_loop w url links []))
    (fun _ => ret []).

Record SearchHit : Type := {
  title : string;
  href : string;
  snippet : string
}.

Definition hit_of_result (r : BackendResult) : SearchHit :=
  {| title := default "" (get_title r);
     href := default "" (get_href r);
     snippet := default "" (get_body r) |}.

Definition _search_web (w : World) (query : string) (max_results : Z) : IO (list SearchHit) :=
  (results <- call (fun t => ddgs_text w t query max_results) ;;
   ret (map hit_of_result results)).

Record Candidate : Type := {
  c_title : string;
  source_page : string;
  direct_url : string;
  reason : string;
  content_type : string
}.

(** The two values of [reason]; the specification calls them
    [MatchedResult] and [FoundOnPage]. *)
Definition MatchedResult : string := "Matched by extension".
Definition FoundOnPage : string := "Found on page".

(** [_head_content_type(url) or ""] *)
Definition or_empty (o : option string) : string :=
  match o with
  | Some s => or_else s ""
  | None => ""
  end.

(** 1) Direct links from search results. *)
Fixpoint direct_links (w : World) (preferred_extensions : list string)
    (raw_results : list SearchHit) (candidates : list Candidate) : IO (list Candidate) :=
  match raw_results with
  | [] => ret candidates
  | r :: rest =>
      if _is_direct_file_url (href r) preferred_extensions then
        (ctype <- _head_content_type w (href r) ;;
         direct_links w preferred_extensions rest
           (candidates ++ [ {| c_title := title r;
                               source_page := href r;
                               direct_url := href r;
                               reason := MatchedResult;
                               content_type := or_empty ctype |} ]))
      else direct_links w preferred_extensions rest candidates
  end.

(** The inner loop of 2): the links of one result page. *)
Fixpoint page_links_loop (w : World) (preferred_extensions : list string)
    (r : SearchHit) (page_links : list string) (candidates : list Candidate)
    : IO (list Candidate) :=
  match page_links with
  | [] => ret candidates
  | link :: rest =>
      if _is_direct_file_url link preferred_extensions then
        (ctype <- _head_content_type w link ;;
         page_links_loop w preferred_extensions r rest
           (candidates ++ [ {| c_title := title r;
                               source_page := href r;
                               direct_url := link;
                               reason := FoundOnPage;
                               content_type := or_empty ctype |} ]))
      else page_links_loop w preferred_extensions r rest candidates
  end.

(** 2) Extract from result pages. *)
Fixpoint result_pages (w : World) (preferred_extensions : list string)
    (raw_results : list SearchHit) (candidates : list Candidate) : IO (list Candidate) :=
  match raw_results with
  | [] => ret candidates
  | r :: rest =>
      if negb (truthy (href r)) || negb (startswith_any (href r) ALLOWED_SCHEMES) then
        result_pages w preferred_extensions rest candidates
      else
        (page_links <-
           try_except Exception (_extract_links_from_page w (href r)) (fun _ => ret []) ;;
         candidates' <- page_links_loop w preferred_extensions r page_links candidates ;;
         result_pages w preferred_extensions rest candidates')
  end.

(** Deduplicate by [direct_url]. *)
Fixpoint deduplicate (candidates : list Candidate) (seen : gset string)
    (unique_candidates : list Candidate) : list Candidate :=
  match candidates with
  | [] => unique_candidates
  | c :: rest =>
      if negb (truthy (direct_url c)) || bool_decide (direct_url c ∈ seen) then
        deduplicate rest seen unique_candidates
      else
        deduplicate rest ({[direct_url c]} ∪ seen) (unique_candidates ++ [c])
  end.

Definition default_extensions : list string :=
  ["pdf"; "zip"; "mp3"; "mp4"; "docx"; "xlsx"; "pptx"; "png"; "jpg"; "jpeg"; "epub"; "txt"].

Definition enriched_query (query : string) (extra_terms : list string) : string :=
  match extra_terms with
  | [] => query
  | _ => (query +:+ " ") +:+ join " " extra_terms
  end.

Definition perform_search_and_extract (w : World) (query : string)
    (extra_terms : option (list string)) (preferred_extensions : option (list string))
    (max_results : Z) : IO (list Candidate) :=
  let preferred_extensions := default default_extensions preferred_extensions in
  let extra_terms := default [] extra_terms in
  (raw_results <- _search_web w (enriched_query query extra_terms) max_results ;;
   candidates <- direct_links w preferred_extensions raw_results [] ;;
   candidates <- result_pages w preferred_extensions raw_results candidates ;;
   ret (deduplicate candidates ∅ [])).

End Search.

(** ** app/main.py: where the allowlist comes from *)

Module Main.
Import PyStr.

Definition DEFAULT_ALLOWED_FILE_EXTENSIONS : string :=
  "pdf,zip,mp3,mp4,docx,xlsx,pptx,png,jpg,jpeg,epub,txt".

(** [get_allowed_extensions()], the environment variable
    [ALLOWED_FILE_EXTENSIONS] being an argument. *)
Definition get_allowed_extensions (env : option string) : list string :=
  let env_value := default DEFAULT_ALLOWED_FILE_EXTENSIONS env in
  let items :=
    map (fun x => lstrip is_dot (lower (strip x)))
        (List.filter (fun x => truthy (strip x)) (split ","%char env_value)) in
  List.filter truthy items.

End Main.

(** ** app/downloader.py *)

Module Downloader.
Import PyStr.


(** What can unwind through a coroutine: an [Exception], or one of the
    [BaseException]s that [except Exception] does not catch. *)
Inductive base_exn : Type := CancelledError | GeneratorExit.

Inductive raised : Type :=
| Exc (e : exn)
| Base (b : base_exn).

Definition is_Exception (r : raised) : bool :=
  match r with
  | Exc _ => true
  | Base _ => false
  end.

(** What the coroutine does to the outside, in order. *)
Inductive event : Type :=
| SessionOpen                (* aiohttp.ClientSession() *)
| HeadRequest (url : string) (* session.head(url, ...) entered *)
| HeadRelease                (* its [async with] left *)
| GetRequest (url : string)  (* session.get(url, ...) entered *)
| GetRelease                 (* its [async with] left *)
| Read                       (* resp.content.read(1024 * 64) *)
| Yield (chunk : string)     (* a chunk handed to the consumer *)
| SessionClose.              (* session.close() *)

Global Instance event_eq_dec : EqDecision event.
Proof. solve_decision. Defined.

Record HeadResponse : Type := {
  head_status : Z;
  head_content_type : option string
}.

(** The upstream server as one invocation sees it: the answer to the HEAD
    request, the status of the GET request, and the successive results of
    reading its body; after the last of them the body is at its end and
    [read] returns the empty chunk. *)
Record Upstream : Type := {
  session_head : string -> result raised HeadResponse;
  session_get : string -> result raised Z;
  content_read : list (result raised string)
}.

(** State of a coroutine: the events so far. *)
Definition Co (A : Type) : Type := M (list event) raised A.

Definition emit (e : event) : Co unit := fun tr => (Ret tt, tr ++ [e]).

Definition await {A} (o : result raised A) : Co A := lift o.

(** [async with cm as x: body]: the body runs when entering succeeded, and
    the context is left however the body ends. *)
Definition async_with {A B} (enter : Co A) (leave : event) (body : A -> Co B) : Co B :=
  (x <- enter ;;
   fun tr => match body x tr with
             | (r, tr') => (r, tr' ++ [leave])
             end).

(** An asynchronous generator, unfolded against the upstream: what it does
    before it yields, returns or raises, and at a yield how it resumes and
    what it runs when it is closed there. *)
Inductive gen : Type :=
| GYield (pre : list event) (chunk : string) (resume : gen) (on_close : list event)
| GReturn (pre : list event)
| GRaise (pre : list event) (e : raised).

Definition gen_pre (evs : list event) (g : gen) : gen :=
  match g with
  | GYield pre chunk resume on_close => GYield (evs ++ pre) chunk resume on_close
  | GReturn pre => GReturn (evs ++ pre)
  | GRaise pre e => GRaise (evs ++ pre) e
  end.

(** [try: g finally: fin], the clean-up being a list of events. *)
Fixpoint try_finally (g : gen) (fin : list event) : gen :=
  match g with
  | GYield pre chunk resume on_close =>
      GYield pre chunk (try_finally resume fin) (on_close ++ fin)
  | GReturn pre => GReturn (pre ++ fin)
  | GRaise pre e => GRaise (pre ++ fin) e
  end.

(** [async for chunk in inner: yield chunk]: closing the outer generator at
    its yield does not run the inner generator's clean-up. *)
Fixpoint async_for_yield (inner : gen) : gen :=
  match inner with
  | GYield pre chunk resume _ => GYield pre chunk (async_for_yield resume) []
  | GReturn pre => GReturn pre
  | GRaise pre e => GRaise pre e
  end.

(** [str(n)] *)
Definition str (n : Z) : string := NilZero.string_of_int (Z.to_int n).

Definition upstream_status (status : Z) : raised :=
  Exc (HTTPException status ("Upstream status " +:+ str status)).

(** The [while True] loop of [_stream_content], inside its [async with]. *)
Fixpoint read_loop (reads : list (result raised string)) : gen :=
  match reads with
  | [] => GReturn [Read; GetRelease]
  | Raise e :: _ => GRaise [Read; GetRelease] e
  | Ret chunk :: rest =>
      if negb (truthy chunk) then GReturn [Read; GetRelease]
      else GYield [Read] chunk (read_loop rest) [GetRelease]
  end.

Definition _stream_content (w : Upstream) (url : string) : gen :=
  match session_get w url with
  | Raise e => GRaise [GetRequest url] e
  | Ret status =>
      if status >=? 400 then GRaise [GetRequest url; GetRelease] (upstream_status status)
      else gen_pre [GetRequest url] (read_loop (content_read w))
  end.

(** The nested [iterator()] of [stream_file_download]. *)
Definition iterator (w : Upstream) (url : string) : gen :=
  try_finally (async_for_yield (_stream_content w url)) [SessionClose].

Record StreamingResponse : Type := {
  body_iterator : gen;
  media_type : string;
  headers : list (string * string)
}.

Definition dquote : string := String "034"%char EmptyString.

Definition disposition_name_of (url : string) : string :=
  or_else (first (split "?"%char (last (split "/"%char url)))) "download".

Definition content_type_of (header : option string) : string :=
  lower (strip (first (split ";"%char (default "application/octet-stream" header)))).

Definition stream_file_download (w : Upstream) (url : string) : Co StreamingResponse :=
  if negb (startswith url "http://" || startswith url "https://") then
    raise (Exc (HTTPException 400 "Invalid URL scheme"))
  else
    (_ <- emit SessionOpen ;;
     try_except is_Exception
       (p <- async_with
               (_ <- emit (HeadRequest url) ;; await (session_head w url))
               HeadRelease
               (fun head_resp =>
                  if head_status head_resp >=? 400 then
                    raise (upstream_status (head_status head_resp))
                  else
                    let content_type := content_type_of (head_content_type head_resp) in
                    let disposition_name := disposition_name_of url in
                    ret (content_type, disposition_name)) ;;
        let headers :=
          [("Content-Disposition",
            (("attachment; filename=" +:+ dquote) +:+ snd p) +:+ dquote)] in
        ret {| body_iterator := iterator w url;
               media_type := or_else (fst p) "application/octet-stream";
               headers := headers |})
       (fun e => _ <- emit SessionClose ;; raise e)).

(** How the body of a returned response is consumed. *)
Inductive consumer : Type :=
| Drain                  (* iterated until it ends *)
| AbandonAfter (n : nat) (* closed while suspended after chunk n+1 *)
| NeverIterated.         (* dropped before the first chunk is asked for *)

Inductive outcome : Type :=
| Exhausted
| Closed
| Failed (e : raised).

Fixpoint drive (g : gen) (c : consumer) : outcome * list event :=
  match c with
  | NeverIterated => (Closed, [])
  | _ =>
      match g with
      | GReturn pre => (Exhausted, pre)
      | GRaise pre e => (Failed e, pre)
      | GYield pre chunk resume on_close =>
          match c with
          | AbandonAfter 0 => (Closed, pre ++ [Yield chunk] ++ on_close)
          | AbandonAfter (S n) =>
              let (o, tr) := drive resume (AbandonAfter n) in
              (o, pre ++ [Yield chunk] ++ tr)
          | _ =>
              let (o, tr) := drive resume c in
              (o, pre ++ [Yield chunk] ++ tr)
          end
      end
  end.

(** One invocation seen from outside: the call, then the consumption of the
    body when a response came back. *)
Definition invocation (w : Upstream) (url : string) (c : consumer) : outcome * list event :=
  match stream_file_download w url [] with
  | (Raise e, tr) => (Failed e, tr)
  | (Ret resp, tr) =>
      let (o, tr') := drive (body_iterator resp) c in (o, tr ++ tr')
  end.

(** Number of times the session was closed. *)
Definition closes (tr : list event) : nat := count_occ event_eq_dec tr SessionClose.

End Downloader.

(** ** The specification's wording, as definitions of its own *)

Module Spec.
Import PyStr.

(** A URL with its query string stripped: the text before the first "?". *)
Fixpoint strip_query (url : string) : string :=
  match url with
  | EmptyString => EmptyString
  | String c rest => if Ascii.eqb c "?"%char then EmptyString else String c (strip_query rest)
  end.

Fixpoint contains (ch : ascii) (s : string) : bool :=
  match s with
  | EmptyString => false
  | String c rest => Ascii.eqb c ch || contains ch rest
  end.

(** The last segment of a path: the text after the last "/". *)
Fixpoint last_segment (path : string) : string :=
  match path with
  | EmptyString => EmptyString
  | String c rest =>
      if contains "/"%char rest then last_segment rest
      else if Ascii.eqb c "/"%char then rest
      else path
  end.

Definition has_http_scheme (url : string) : bool :=
  startswith url "http://" || startswith url "https://".

(** An extension normalized: lowercase, no leading dot. *)
Definition normalize_extension (e : string) : string := lstrip is_dot (lower e).

Definition normalized_extension (e : string) : bool :=
  String.eqb (normalize_extension e) e.

(** An extension that is lowercase with no dot at either end. *)
Definition clean_extension (e : string) : Prop :=
  lower e = e /\ lstrip is_dot e = e /\ rstrip is_dot e = e.

(** [s] ends with [suf], letter case ignored. *)
Definition endswith_ci (s suf : string) : bool := endswith (lower s) (lower suf).

(** The link classifier as the specification words it. *)
Definition is_direct_file (url : string) (allowed_extensions : list string) : bool :=
  has_http_scheme url &&
  existsb (fun e => endswith_ci (strip_query url) ("." +:+ normalize_extension e))
          allowed_extensions.

(** The disposition name as the specification words it: the last path
    segment of the URL with any query string removed, or the default. *)
Definition disposition_name (url : string) : string :=
  or_else (last_segment (strip_query url)) "download".

(** Deduplication by [direct_url]: first occurrence kept, order preserved. *)
Fixpoint first_occurrences (l : list Search.Candidate) : list Search.Candidate :=
  match l with
  | [] => []
  | c :: rest =>
      c :: filter (fun c' => Search.direct_url c' ≠ Search.direct_url c) (first_occurrences rest)
  end.

(** How one hyperlink target is made absolute: the targets it contributes
    to the result. *)
Definition resolve (w : Search.World) (page_url href : string) : list string :=
  if startswith href "http://" || startswith href "https://" then [href]
  else if startswith href "//" then ["https:" +:+ href]
  else if startswith href "/" then
    match Search.urljoin w page_url href with
    | Ret absolute => [absolute]
    | Raise _ => []
    end
  else [].

(** The content-type probe fails: the request raises, or the answer has no
    [Content-Type] header or an empty one. *)
Definition probe_fails (r : result exn Search.Response) : Prop :=
  match r with
  | Raise _ => True
  | Ret response =>
      match Search.header_content_type response with
      | None => True
      | Some ctype => ctype = ""
      end
  end.

(** Everything of a candidate but its advisory content type. *)
Definition provenance (c : Search.Candidate) : string * string * string * string :=
  (Search.c_title c, Search.source_page c, Search.direct_url c, Search.reason c).

(** Two worlds that differ at most in what HEAD requests answer. *)
Definition same_but_probe (w w' : Search.World) : Prop :=
  (forall t q n, Search.ddgs_text w t q n = Search.ddgs_text w' t q n) /\
  (forall t u, Search.requests_get w t u = Search.requests_get w' t u) /\
  (forall s, Search.find_all_a_href w s = Search.find_all_a_href w' s) /\
  (forall a b, Search.urljoin w a b = Search.urljoin w' a b).

(** A candidate as a phase of the pipeline emits it: classified, with
    the given reason, and with the content type some probe of its URL gave. *)
Definition emitted (w : Search.World) (exts : list string) (rsn : string)
    (c : Search.Candidate) : Prop :=
  Search.reason c = rsn /\
  Search._is_direct_file_url (Search.direct_url c) exts = true /\
  exists tk o, Search._head_content_type w (Search.direct_url c) tk = (Ret o, S tk) /\
               Search.content_type c = Search.or_empty o.

(** Text after the first "?": the query string and what follows it. *)
Fixpoint after_query (url : string) : string :=
  match url with
  | EmptyString => EmptyString
  | String c rest => if Ascii.eqb c "?"%char then rest else after_query rest
  end.


End Spec.

(** ** Concrete worlds *)

Module Examples.
Import Search.

Definition no_answer {A} : result exn A := Raise (Error "ConnectionError" "no route to host").

(** The search backend is rate limited; nothing else answers. *)
Definition backend_down : World := {|
  ddgs_text := fun _ _ _ => Raise (Error "RatelimitException" "202 Ratelimit");
  requests_head := fun _ _ => no_answer;
  requests_get := fun _ _ => no_answer;
  find_all_a_href := fun _ => Ret [];
  urljoin := fun base href => Ret (base +:+ href)
|}.

(** The search finds nothing. *)
Definition no_results : World := {|
  ddgs_text := fun _ _ _ => Ret [];
  requests_head := fun _ _ => no_answer;
  requests_get := fun _ _ => no_answer;
  find_all_a_href := fun _ => Ret [];
  urljoin := fun base href => Ret (base +:+ href)
|}.

(** The search returns the book and nothing else answers. *)
Definition one_hit : World := {|
  ddgs_text := fun _ _ _ =>
    Ret [ {| get_title := Some "Operating Systems";
             get_href := Some "https://example.edu/os.pdf";
             get_body := None |} ];
  requests_head := fun _ _ => no_answer;
  requests_get := fun _ _ => no_answer;
  find_all_a_href := fun _ => Ret [];
  urljoin := fun base href => Ret (base +:+ href)
|}.

(** A course site: the search returns the book itself and the course page;
    the course page links to the book twice and to slides on another host.
    HEAD requests time out. *)
Definition course_hits : list BackendResult :=
  [ {| get_title := Some "Operating Systems"; get_href := Some "https://example.edu/os.pdf";
       get_body := Some "The textbook." |};
    {| get_title := Some "Course page"; get_href := Some "https://example.edu/course";
       get_body := None |} ].

Definition course_links : list string :=
  ["/os.pdf"; "https://example.edu/os.pdf"; "notes/week1.pdf";
   "//cdn.example.edu/slides.pdf"; "#top"].

Definition course_site : World := {|
  ddgs_text := fun _ _ _ => Ret course_hits;
  requests_head := fun _ _ => Raise (Error "Timeout" "timed out");
  requests_get := fun _ url =>
    if String.eqb url "https://example.edu/course"
    then Ret {| status_code := 200; header_content_type := Some "text/html"; text := "<html>" |}
    else no_answer;
  find_all_a_href := fun _ => Ret course_links;
  urljoin := fun _ href => Ret ("https://example.edu" +:+ href)
|}.

Definition course_output : list Candidate :=
  [ {| c_title := "Operating Systems"; source_page := "https://example.edu/os.pdf";
       direct_url := "https://example.edu/os.pdf"; reason := MatchedResult;
       content_type := "" |};
    {| c_title := "Course page"; source_page := "https://example.edu/course";
       direct_url := "https://cdn.example.edu/slides.pdf"; reason := FoundOnPage;
       content_type := "" |} ].

(** A server that answers with the status 999 and a page with one link. *)
Definition status_999 : World := {|
  ddgs_text := fun _ _ _ => Ret [];
  requests_head := fun _ _ => no_answer;
  requests_get := fun _ _ =>
    Ret {| status_code := 999; header_content_type := None; text := "<a href>" |};
  find_all_a_href := fun _ => Ret ["http://x/a.pdf"];
  urljoin := fun base href => Ret (base +:+ href)
|}.

(** An upstream that serves a two-chunk PDF. *)
Definition pdf_upstream : Downloader.Upstream := {|
  Downloader.session_head := fun _ =>
    Ret {| Downloader.head_status := 200;
           Downloader.head_content_type := Some "application/pdf" |};
  Downloader.session_get := fun _ => Ret 200;
  Downloader.content_read := [Ret "%PDF"; Ret "-1.7"]
|}.

(** An upstream that serves a web page. *)
Definition html_upstream : Downloader.Upstream := {|
  Downloader.session_head := fun _ =>
    Ret {| Downloader.head_status := 200;
           Downloader.head_content_type := Some "Text/HTML; charset=utf-8" |};
  Downloader.session_get := fun _ => Ret 200;
  Downloader.content_read := [Ret "<html>"; Ret "</html>"]
|}.

(** The request is cancelled while the probe is awaited. *)
Definition cancelled_upstream : Downloader.Upstream := {|
  Downloader.session_head := fun _ => Raise (Downloader.Base Downloader.CancelledError);
  Downloader.session_get := fun _ => Raise (Downloader.Base Downloader.CancelledError);
  Downloader.content_read := []
|}.

(** An upstream that does not have the file. *)
Definition missing_upstream : Downloader.Upstream := {|
  Downloader.session_head := fun _ =>
    Ret {| Downloader.head_status := 404;
           Downloader.head_content_type := Some "text/html" |};
  Downloader.session_get := fun _ => Ret 404;
  Downloader.content_read := []
|}.

End Examples.

(** ** app/main.py: the download route *)

Module Routes.
Import Downloader.

(** [download(url)]: an [HTTPException] is raised again as it is, any other
    [Exception] becomes an [HTTPException] 500 that carries its message, and
    what is no [Exception] passes through. *)
Definition download (w : Upstream) (url : string) : Co StreamingResponse :=
  fun tr =>
    match stream_file_download w url tr with
    | (Raise (Exc (HTTPException status detail)), tr') =>
        (Raise (Exc (HTTPException status detail)), tr')
    | (Raise (Exc (Error cls msg)), tr') =>
        (Raise (Exc (HTTPException 500 ("Download failed: " +:+ msg))), tr')
    | (Raise (Base b), tr') => (Raise (Base b), tr')
    | (Ret response, tr') => (Ret response, tr')
    end.

End Routes.

(** ** app/llm.py *)

Module LLM.
Import PyStr.

(** A value as [json.loads] returns it; an object is the list of the items
    of the [dict], each key once; of a number the program only ever asks
    whether it is zero. *)
#[local] Unset Elimination Schemes.
Inductive json : Type :=
| JNull
| JBool (b : bool)
| JNumber (is_zero : bool)
| JString (s : string)
| JArray (items : list json)
| JObject (fields : list (string * json)).
#[local] Set Elimination Schemes.

(** The outside of the module: the environment, the OpenAI client and the
    JSON codec.  [create model system user temperature] is
    [client.chat.completions.create(...).choices[0].message.content]. *)
Record Service : Type := {
  OPENAI_API_KEY : option string;
  OpenAI : string -> result exn unit;
  OPENAI_MODEL : option string;
  create : string -> string -> string -> string -> result exn (option string);
  json_loads : string -> result exn json;
  json_dumps : list Search.Candidate -> result exn string
}.

Definition and_then {A B} (r : result exn A) (k : A -> result exn B) : result exn B :=
  match r with
  | Ret a => k a
  | Raise e => Raise e
  end.

(** [_get_client()]: whether a client is at hand. *)
Definition _get_client (svc : Service) : bool :=
  match OPENAI_API_KEY svc with
  | None => false
  | Some api_key =>
      if negb (truthy api_key) then false
      else match OpenAI svc api_key with
           | Ret _ => true
           | Raise _ => false
           end
  end.

Fixpoint assoc (key : string) (fields : list (string * json)) : option json :=
  match fields with
  | [] => None
  | (k, v) :: rest => if String.eqb k key then Some v else assoc key rest
  end.

(** [data.get(key, dflt)]: only a [dict] has the method. *)
Definition get (data : json) (key : string) (dflt : json) : result exn json :=
  match data with
  | JObject fields => Ret (default dflt (assoc key fields))
  | _ => Raise (Error "AttributeError" "object has no attribute 'get'")
  end.

(** [for x in value]: the items of a list, the characters of a string,
    the keys of a dict; nothing else is iterable. *)
Definition iterate (value : json) : result exn (list json) :=
  match value with
  | JArray items => Ret items
  | JString s => Ret (map (fun c => JString (String c EmptyString)) (list_ascii_of_string s))
  | JObject fields => Ret (map (fun kv => JString (fst kv)) fields)
  | _ => Raise (Error "TypeError" "object is not iterable")
  end.

(** [[x for x in items if isinstance(x, str)]] *)
Fixpoint strings_of (items : list json) : list string :=
  match items with
  | [] => []
  | JString s :: rest => s :: strings_of rest
  | _ :: rest => strings_of rest
  end.

Record Enrichment : Type := {
  keywords : list string;
  extensions : list string
}.

Definition newline : string := String "010"%char EmptyString.

Definition enrich_prompt (query : string) (allowed_extensions : list string) : string :=
  ("You are assisting a web file searcher. Given a user query, suggest up to 4 additional "
   +:+ "keywords that are likely to yield direct file downloads and return a small list of file "
   +:+ "extensions from the allowlist that best match the user's intent." +:+ newline +:+ newline
   +:+ "User query: " +:+ query +:+ newline
   +:+ "Allowlist extensions: " +:+ join ", " allowed_extensions +:+ newline
   +:+ "Respond as JSON with keys 'keywords' (list[str]) and 'extensions' (list[str]).").

(** [l or dflt] on lists. *)
Definition or_list {A} (l dflt : list A) : list A :=
  match l with
  | [] => dflt
  | _ => l
  end.

(** [e in set(allowed_extensions)] *)
Definition member (e : string) (l : list string) : bool :=
  bool_decide (e ∈ (list_to_set l : gset string)).

Definition enrich_query_with_llm (svc : Service) (query : string)
    (allowed_extensions : list string) : Enrichment :=
  if negb (_get_client svc) then
    {| keywords := ["download"; "direct link"]; extensions := allowed_extensions |}
  else
    let model := default "gpt-4o-mini" (OPENAI_MODEL svc) in
    let prompt := enrich_prompt query allowed_extensions in
    match
      and_then (create svc model "Return only JSON." prompt "0.2") (fun completion =>
      let content := or_else (default "" completion) "{}" in
      and_then (json_loads svc content) (fun data =>
      and_then (get data "keywords" (JArray [])) (fun ks =>
      and_then (iterate ks) (fun ks =>
      let keywords := take 4 (strings_of ks) in
      and_then (get data "extensions" (JArray [])) (fun es =>
      and_then (iterate es) (fun es =>
      let extensions := map (fun e => lower (strip_chars is_dot e)) (strings_of es) in
      let extensions :=
        or_list (List.filter (fun e => member e allowed_extensions) extensions)
                allowed_extensions in
      let keywords := or_list keywords ["download"; "file"; "direct link"] in
      Ret {| keywords := keywords; extensions := extensions |}))))))
    with
    | Ret enrichment => enrichment
    | Raise _ =>
        {| keywords := ["download"; "direct link"]; extensions := allowed_extensions |}
    end.

(** A candidate as the [dict] it is. *)
Definition candidate_json (c : Search.Candidate) : json :=
  JObject [ ("title", JString (Search.c_title c));
            ("source_page", JString (Search.source_page c));
            ("direct_url", JString (Search.direct_url c));
            ("reason", JString (Search.reason c));
            ("content_type", JString (Search.content_type c)) ].

Definition score_prompt (query dumped : string) : string :=
  ("Rank downloadable file candidates for relevance to the user query. "
   +:+ "Return the same list sorted best-first. Keep original fields and do not add new ones."
   +:+ newline +:+ newline
   +:+ "User query: " +:+ query +:+ newline
   +:+ "Candidates JSON: " +:+ dumped +:+ newline
   +:+ "Respond with JSON array only.").

Definition score_candidates_with_llm (svc : Service) (query : string)
    (candidates : list Search.Candidate) : result exn (list json) :=
  if negb (_get_client svc) then Ret (map candidate_json (take 20 candidates))
  else
    let model := default "gpt-4o-mini" (OPENAI_MODEL svc) in
    and_then (json_dumps svc (take 30 candidates)) (fun dumped =>
    let prompt := score_prompt query dumped in
    match
      and_then (create svc model "Return only raw JSON array." prompt "0.0") (fun completion =>
      let content := or_else (default "" completion) "[]" in
      json_loads svc content)
    with
    | Ret (JArray (item :: items)) => Ret (take 50 (item :: items))
    | _ => Ret (map candidate_json (take 20 candidates))
    end).

End LLM.

(** ** app/main.py: the search route *)

Module Pages.
Import PyStr.

(** The environment of the process, [int] and [urllib.parse.quote] with
    [safe=''] on text. *)
Record Environment : Type := {
  ALLOWED_FILE_EXTENSIONS : option string;
  MAX_RESULTS : option string;
  int : string -> result exn Z;
  quote : string -> string
}.

Inductive Message : Type := NothingFound.

Inductive Response : Type :=
| RedirectResponse (url : string)
| TemplateResponse (query : string) (results : list LLM.json) (message : option Message).

(** Truthiness of a JSON value: [if direct]. *)
Definition truthy_json (v : LLM.json) : bool :=
  match v with
  | LLM.JNull => false
  | LLM.JBool b => b
  | LLM.JNumber is_zero => negb is_zero
  | LLM.JString s => truthy s
  | LLM.JArray items => match items with [] => false | _ => true end
  | LLM.JObject fields => match fields with [] => false | _ => true end
  end.

(** [d[key] = v] on the items of a dict: in place when the key is there,
    at the end otherwise. *)
Fixpoint set_item (key : string) (v : LLM.json) (fields : list (string * LLM.json))
    : list (string * LLM.json) :=
  match fields with
  | [] => [(key, v)]
  | (k, old) :: rest =>
      if String.eqb k key then (k, v) :: rest else (k, old) :: set_item key v rest
  end.

(** The body of the loop over [ranked]. *)
Definition add_download_href (env : Environment) (item : LLM.json) : result exn LLM.json :=
  LLM.and_then (LLM.get item "direct_url" (LLM.JString "")) (fun direct =>
  LLM.and_then
    (if truthy_json direct then
       match direct with
       | LLM.JString s => Ret ("/download?url=" +:+ quote env s)
       | _ => Raise (Error "TypeError" "quote_from_bytes() expected bytes")
       end
     else Ret "#") (fun href =>
  match item with
  | LLM.JObject fields => Ret (LLM.JObject (set_item "download_href" (LLM.JString href) fields))
  | _ => Raise (Error "TypeError" "object does not support item assignment")
  end)).

Fixpoint for_each (env : Environment) (ranked : list LLM.json) : result exn (list LLM.json) :=
  match ranked with
  | [] => Ret []
  | item :: rest =>
      LLM.and_then (add_download_href env item) (fun item' =>
      LLM.and_then (for_each env rest) (fun rest' => Ret (item' :: rest')))
  end.

Definition search (env : Environment) (svc : LLM.Service) (w : Search.World) (q : string)
    : Search.IO Response :=
  let query := strip q in
  if negb (truthy query) then ret (RedirectResponse "/")
  else
    let allowed_extensions := Main.get_allowed_extensions (ALLOWED_FILE_EXTENSIONS env) in
    let enrichment := LLM.enrich_query_with_llm svc query allowed_extensions in
    (max_results <- lift (int env (default "10" (MAX_RESULTS env))) ;;
     candidates <- Search.perform_search_and_extract w query
                     (Some (LLM.keywords enrichment)) (Some (LLM.extensions enrichment))
                     max_results ;;
     match candidates with
     | [] => ret (TemplateResponse query [] (Some NothingFound))
     | _ =>
         (ranked <- lift (LLM.score_candidates_with_llm svc query candidates) ;;
          results <- lift (for_each env ranked) ;;
          ret (TemplateResponse query results None))
     end).

End Pages.

(** ** main.py: the trends service *)

Module Trends.

(** A row of the data frame: [index.isoformat()] and [int(row[keyword])]. *)
Record Row : Type := {
  index_isoformat : string;
  row_value : Z
}.

(** What the program reads off a [datetime]: [dt.hour] and
    [dt.strftime("%A")]. *)
Record datetime : Type := {
  hour : Z;
  day_name : string
}.

(** The outside: the request to Google Trends, by keyword, time frame and
    region, and the parser of ISO dates. *)
Record Service : Type := {
  interest_over_time : string -> string -> option string -> result exn (list Row);
  fromisoformat : string -> result exn datetime
}.

Record Point : Type := {
  point_datetime : string;
  point_value : Z
}.

Inductive Response : Type :=
| ErrorResponse
| TrendsResponse (keyword : string) (trend_data : list Point) (top_hour : Z) (top_day : string).

Definition and_then {A B} (r : result exn A) (k : A -> result exn B) : result exn B :=
  match r with
  | Ret a => k a
  | Raise e => Raise e
  end.

(** [d[key] = d.get(key, 0) + v] on the items of a dict, in insertion
    order. *)
Fixpoint add_to {K} `{EqDecision K} (key : K) (v : Z) (d : list (K * Z)) : list (K * Z) :=
  match d with
  | [] => [(key, 0 + v)]
  | (k, old) :: rest =>
      if decide (k = key) then (k, old + v) :: rest
      else (k, old) :: add_to key v rest
  end.

Fixpoint max_from {K} (best : K) (best_value : Z) (d : list (K * Z)) : K :=
  match d with
  | [] => best
  | (k, v) :: rest =>
      if best_value <? v then max_from k v rest else max_from best best_value rest
  end.

(** [max(d, key=d.get)]: the first key with the greatest value. *)
Definition max_key {K} (d : list (K * Z)) : result exn K :=
  match d with
  | [] => Raise (Error "ValueError" "max() arg is an empty sequence")
  | (k, v) :: rest => Ret (max_from k v rest)
  end.

(** The loop over [result["trend_data"]]. *)
Fixpoint aggregate (svc : Service) (trend_data : list Point)
    (by_hour : list (Z * Z)) (by_day : list (string * Z))
    : result exn (list (Z * Z) * list (string * Z)) :=
  match trend_data with
  | [] => Ret (by_hour, by_day)
  | point :: rest =>
      and_then (fromisoformat svc (point_datetime point)) (fun dt =>
      aggregate svc rest
        (add_to (hour dt) (point_value point) by_hour)
        (add_to (day_name dt) (point_value point) by_day))
  end.

Definition point_of (row : Row) : Point :=
  {| point_datetime := index_isoformat row; point_value := row_value row |}.

Definition get_trends (svc : Service) (keyword timeframe : string) (geo : option string)
    : result exn Response :=
  and_then (interest_over_time svc keyword timeframe geo) (fun interest =>
  match interest with
  | [] => Ret ErrorResponse
  | _ =>
      let trend_data := map point_of interest in
      and_then (aggregate svc trend_data [] []) (fun dicts =>
      and_then (max_key (fst dicts)) (fun top_hour =>
      and_then (max_key (snd dicts)) (fun top_day =>
      Ret (TrendsResponse keyword trend_data top_hour top_day))))
  end).

End Trends.

(** ** Notions used to state properties of the program *)

Module Props.

(** Every character of [s] satisfies [P]. *)
Fixpoint all_chars (P : ascii -> bool) (s : string) : bool :=
  match s with
  | EmptyString => true
  | String c rest => P c && all_chars P rest
  end.

Definition not_upper (c : ascii) : bool := negb (PyStr.is_upper c).

(** The chunks an upstream body delivers: the non-empty chunks read before
    the first empty chunk, the first error, or the end of the body. *)
Fixpoint served (reads : list (result Downloader.raised string)) : list string :=
  match reads with
  | Ret chunk :: rest => if PyStr.truthy chunk then chunk :: served rest else []
  | _ => []
  end.

(** The chunks handed to the consumer, in order. *)
Fixpoint yields (tr : list Downloader.event) : list string :=
  match tr with
  | [] => []
  | Downloader.Yield chunk :: rest => chunk :: yields rest
  | _ :: rest => yields rest
  end.

(** Number of reads made on the upstream body. *)
Definition reads_made (tr : list Downloader.event) : nat :=
  count_occ Downloader.event_eq_dec tr Downloader.Read.

(** The candidate phase A appends for a hit, and the one phase B appends
    for a link found on the page of a hit. *)
Definition direct_candidate (r : Search.SearchHit) (ctype : option string) : Search.Candidate :=
  {| Search.c_title := Search.title r;
     Search.source_page := Search.href r;
     Search.direct_url := Search.href r;
     Search.reason := Search.MatchedResult;
     Search.content_type := Search.or_empty ctype |}.

Definition page_candidate (r : Search.SearchHit) (link : string) (ctype : option string)
    : Search.Candidate :=
  {| Search.c_title := Search.title r;
     Search.source_page := Search.href r;
     Search.direct_url := link;
     Search.reason := Search.FoundOnPage;
     Search.content_type := Search.or_empty ctype |}.

(** A content type as the prober leaves it: nothing, or text without ";"
    and without capital letters. *)
Definition bare_media_type (s : string) : Prop :=
  Spec.contains ";"%char s = false /\ PyStr.lower s = s.

(** Where a candidate of the output comes from, given the hits of the
    search. *)
Definition traced (hits : list Search.SearchHit) (c : Search.Candidate) : Prop :=
  (exists r ctype, r ∈ hits /\ c = direct_candidate r ctype) \/
  (exists r link ctype, r ∈ hits /\ Spec.has_http_scheme (Search.href r) = true /\
                        c = page_candidate r link ctype).

(** A candidate of a run over [hits] with the allowlist [exts]: accepted by
    the classifier, traced to a hit, with a bare content type. *)
Definition sound (exts : list string) (hits : list Search.SearchHit) (c : Search.Candidate)
    : Prop :=
  Search._is_direct_file_url (Search.direct_url c) exts = true /\
  traced hits c /\
  bare_media_type (Search.content_type c).

(** A candidate as the results page shows it: its fields and the link to
    the download route. *)
Definition shown (env : Pages.Environment) (c : Search.Candidate) : LLM.json :=
  LLM.JObject [ ("title", LLM.JString (Search.c_title c));
                ("source_page", LLM.JString (Search.source_page c));
                ("direct_url", LLM.JString (Search.direct_url c));
                ("reason", LLM.JString (Search.reason c));
                ("content_type", LLM.JString (Search.content_type c));
                ("download_href",
                 LLM.JString ("/download?url=" +:+ Pages.quote env (Search.direct_url c))) ].

(** An item of the results page with its link: an object whose
    "download_href" is "#" or the download route applied to a quoted URL. *)
Definition linked (env : Pages.Environment) (item : LLM.json) : Prop :=
  exists fields href,
    item = LLM.JObject fields /\
    LLM.assoc "download_href" fields = Some (LLM.JString href) /\
    (href = "#" \/ exists url, href = "/download?url=" +:+ Pages.quote env url).

(** The sum of the values filed under [key]. *)
Fixpoint total {K} `{EqDecision K} (key : K) (samples : list (K * Z)) : Z :=
  match samples with
  | [] => 0
  | (k, v) :: rest => (if decide (k = key) then v else 0) + total key rest
  end.

(** [d.get(key, 0)] on the items of a dict. *)
Fixpoint value_of {K} `{EqDecision K} (key : K) (d : list (K * Z)) : Z :=
  match d with
  | [] => 0
  | (k, v) :: rest => if decide (k = key) then v else value_of key rest
  end.

(** The dict after the samples were filed one by one, as the loop of
    [get_trends] does. *)
Definition tally {K} `{EqDecision K} (samples : list (K * Z)) (d : list (K * Z))
    : list (K * Z) :=
  fold_left (fun d sample => Trends.add_to (fst sample) (snd sample) d) samples d.

End Props.

(** ** More concrete worlds *)

Module MoreExamples.


(** The upstream cannot be reached. *)
Definition unreachable_upstream : Downloader.Upstream := {|
  Downloader.session_head := fun _ =>
    Raise (Downloader.Exc (Error "ClientConnectorError" "Cannot connect to host"));
  Downloader.session_get := fun _ =>
    Raise (Downloader.Exc (Error "ClientConnectorError" "Cannot connect to host"));
  Downloader.content_read := []
|}.

(** The course site of [Examples], with HEAD requests answered. *)
Definition typed_site : Search.World := {|
  Search.ddgs_text := Search.ddgs_text Examples.course_site;
  Search.requests_head := fun _ _ =>
    Ret {| Search.status_code := 200;
           Search.header_content_type := Some " Application/PDF; qs=0.9";
           Search.text := "" |};
  Search.requests_get := Search.requests_get Examples.course_site;
  Search.find_all_a_href := Search.find_all_a_href Examples.course_site;
  Search.urljoin := Search.urljoin Examples.course_site
|}.

(** No API key is set. *)
Definition no_model : LLM.Service := {|
  LLM.OPENAI_API_KEY := None;
  LLM.OpenAI := fun _ => Ret tt;
  LLM.OPENAI_MODEL := None;
  LLM.create := fun _ _ _ _ => Raise (Error "APIConnectionError" "Connection error.");
  LLM.json_loads := fun _ => Raise (Error "JSONDecodeError" "Expecting value");
  LLM.json_dumps := fun _ => Ret "[]"
|}.

(** A model that answers the ranking request with a list of two numbers. *)
Definition odd_model : LLM.Service := {|
  LLM.OPENAI_API_KEY := Some "sk-test";
  LLM.OpenAI := fun _ => Ret tt;
  LLM.OPENAI_MODEL := None;
  LLM.create := fun _ _ _ _ => Ret (Some "[1, 2]");
  LLM.json_loads := fun _ => Ret (LLM.JArray [LLM.JNumber false; LLM.JNumber false]);
  LLM.json_dumps := fun _ => Ret "[]"
|}.

(** Percent-encoding of the three characters that matter in the examples. *)
Fixpoint quote_some (s : string) : string :=
  match s with
  | EmptyString => EmptyString
  | String c rest =>
      (if Ascii.eqb c ":"%char then "%3A"
       else if Ascii.eqb c "/"%char then "%2F"
       else if Ascii.eqb c "?"%char then "%3F"
       else String c EmptyString) +:+ quote_some rest
  end.

(** Nothing is set in the environment. *)
Definition plain_env : Pages.Environment := {|
  Pages.ALLOWED_FILE_EXTENSIONS := None;
  Pages.MAX_RESULTS := None;
  Pages.int := fun s => if String.eqb s "10" then Ret 10 else Raise (Error "ValueError" s);
  Pages.quote := quote_some
|}.

(** Three samples of a week: two on Monday at 9, one on Tuesday at 18. *)
Definition week_rows : list Trends.Row :=
  [ {| Trends.index_isoformat := "2024-01-01T09:00:00"; Trends.row_value := 40 |};
    {| Trends.index_isoformat := "2024-01-02T18:00:00"; Trends.row_value := 70 |};
    {| Trends.index_isoformat := "2024-01-08T09:00:00"; Trends.row_value := 45 |} ].

Definition week_dates : list Trends.datetime :=
  [ {| Trends.hour := 9; Trends.day_name := "Monday" |};
    {| Trends.hour := 18; Trends.day_name := "Tuesday" |};
    {| Trends.hour := 9; Trends.day_name := "Monday" |} ].

Definition week : Trends.Service := {|
  Trends.interest_over_time := fun _ _ _ => Ret week_rows;
  Trends.fromisoformat := fun s =>
    if String.eqb s "2024-01-02T18:00:00"
    then Ret {| Trends.hour := 18; Trends.day_name := "Tuesday" |}
    else Ret {| Trends.hour := 9; Trends.day_name := "Monday" |}
|}.

End MoreExamples.

(** * Facts about the string methods *)

Import PyStr.

Section StringFacts.

Lemma app_String (c : ascii) (a b : string) :
  String c a +:+ b = String c (a +:+ b).
Proof. reflexivity. Qed.

Lemma app_empty_l (b : string) : "" +:+ b = b.
Proof. reflexivity. Qed.

Ltac app_simpl := rewrite ?app_String, ?app_empty_l in *.


Lemma endswith_unfold (s suf : string) :
  endswith s suf =
  if String.eqb s suf then true
  else match s with
       | EmptyString => false
       | String _ s' => endswith s' suf
       end.
Proof. destruct s; reflexivity. Qed.

Lemma endswith_iff (s suf : string) :
  endswith s suf = true <-> exists p, s = p +:+ suf.
Proof.
  induction s as [|c s IH]; rewrite endswith_unfold.
  - destruct (String.eqb_spec "" suf) as [<-|Hne].
    + split; [exists ""; reflexivity | reflexivity].
    + split; [discriminate|]. intros [p Hp]. destruct p; app_simpl; congruence.
  - destruct (String.eqb_spec (String c s) suf) as [<-|Hne].
    + split; [exists ""; reflexivity | reflexivity].
    + rewrite IH. split.
      * intros [p ->]. exists (String c p). reflexivity.
      * intros [p Hp]. destruct p as [|d p]; app_simpl; [congruence|].
        exists p. congruence.
Qed.

Lemma lower_app (a b : string) : lower (a +:+ b) = lower a +:+ lower b.
Proof. induction a as [|c a IH]; simpl; [reflexivity | by rewrite IH]. Qed.

Lemma lower_ascii_idemp (c : ascii) : lower_ascii (lower_ascii c) = lower_ascii c.
Proof. by destruct c as [[] [] [] [] [] [] [] []]. Qed.

Lemma lower_idemp (s : string) : lower (lower s) = lower s.
Proof.
  induction s as [|c s IH]; simpl; [reflexivity|].
  by rewrite lower_ascii_idemp, IH.
Qed.


Lemma first_split (sep : ascii) (s : string) :
  first (split sep s) =
  (fix upto (s : string) : string :=
     match s with
     | EmptyString => EmptyString
     | String c rest => if Ascii.eqb c sep then EmptyString else String c (upto rest)
     end) s.
Proof.
  induction s as [|c s IH]; simpl; [reflexivity|].
  destruct (Ascii.eqb c sep); [reflexivity|].
  rewrite <- IH. unfold first. destruct (split sep s); reflexivity.
Qed.

Lemma first_split_query (url : string) :
  first (split "?"%char url) = Spec.strip_query url.
Proof. rewrite first_split. by induction url as [|c s ->]. Qed.

End StringFacts.

(** * The link classifier *)

Import Search.

Section Classifier.

Lemma startswith_any_schemes (url : string) :
  startswith_any url ALLOWED_SCHEMES = Spec.has_http_scheme url.
Proof.
  unfold startswith_any, ALLOWED_SCHEMES, Spec.has_http_scheme. simpl.
  by rewrite orb_false_r.
Qed.


Lemma has_http_scheme_truthy (url : string) :
  Spec.has_http_scheme url = true -> truthy url = true.
Proof. by destruct url. Qed.

Lemma any_ext_iff (lowered : string) (A : list string) :
  any_ext lowered A = true <->
  exists e, e ∈ A /\ endswith lowered ("." +:+ strip_chars is_dot e) = true.
Proof.
  induction A as [|a A IH]; simpl.
  - split; [done | intros (e & He & _); by apply elem_of_nil in He].
  - destruct (endswith lowered ("." +:+ strip_chars is_dot a)) eqn:Ha.
    + split; [|done]. intros _. exists a. split; [left | done].
    + rewrite IH. split.
      * intros (e & He & Hend). exists e. split; [by right | done].
      * intros (e & He & Hend). apply elem_of_cons in He as [->|He]; [congruence|].
        by exists e.
Qed.

Lemma is_direct_file_url_unfold (url : string) (A : list string) :
  _is_direct_file_url url A =
  Spec.has_http_scheme url && any_ext (lower (Spec.strip_query url)) A.
Proof.
  unfold _is_direct_file_url.
  rewrite startswith_any_schemes, first_split_query.
  destruct (Spec.has_http_scheme url) eqn:Hs.
  - by rewrite (has_http_scheme_truthy _ Hs).
  - by rewrite orb_true_r.
Qed.



Lemma is_dot_lower_ascii (c : ascii) : is_dot (lower_ascii c) = is_dot c.
Proof. by destruct c as [[] [] [] [] [] [] [] []]. Qed.

Lemma lower_lstrip_dot (s : string) :
  lower (lstrip is_dot s) = lstrip is_dot (lower s).
Proof.
  induction s as [|c s IH]; simpl; [done|].
  rewrite is_dot_lower_ascii. by destruct (is_dot c).
Qed.

Lemma lstrip_idemp (p : ascii -> bool) (s : string) :
  lstrip p (lstrip p s) = lstrip p s.
Proof.
  induction s as [|c s IH]; simpl; [done|].
  destruct (p c) eqn:Hc; [done|]. simpl. by rewrite Hc.
Qed.

(** X5.  What [get_allowed_extensions] returns is lowercase with no
    leading dot, the normal form the specification speaks of, whatever the
    environment holds; trailing dots stay. *)
Lemma get_allowed_extensions_normalized (env : option string) :
  Forall (fun e => Spec.normalized_extension e = true) (Main.get_allowed_extensions env).
Proof.
  unfold Main.get_allowed_extensions. apply Forall_forall. intros e He.
  apply list_elem_of_In, filter_In in He as [He _].
  apply in_map_iff in He as (x & <- & _).
  unfold Spec.normalized_extension, Spec.normalize_extension.
  apply String.eqb_eq.
  by rewrite lower_lstrip_dot, lower_idemp, lstrip_idemp.
Qed.

(** The specification's examples of rejected schemes. *)
Lemma is_direct_file_url_scheme_rejection :
  _is_direct_file_url "ftp://x/file.pdf" ["pdf"] = false /\
  _is_direct_file_url "/relative/file.pdf" ["pdf"] = false /\
  _is_direct_file_url "//x/file.pdf" ["pdf"] = false.
Proof. repeat split; reflexivity. Qed.

(** Extensions are not lowercased by the classifier either. *)
Lemma is_direct_file_url_uppercase_extension :
  _is_direct_file_url "http://x/a.pdf" ["PDF"] = false /\
  Spec.is_direct_file "http://x/a.pdf" ["PDF"] = true.
Proof. split; reflexivity. Qed.

Lemma existsb_ext {A} (f g : A -> bool) (l : list A) :
  Forall (fun x => f x = g x) l -> existsb f l = existsb g l.
Proof. induction 1 as [|x l Hx _ IH]; simpl; [done | by rewrite Hx, IH]. Qed.

Lemma any_ext_existsb (lowered : string) (A : list string) :
  any_ext lowered A =
  existsb (fun e => endswith lowered ("." +:+ strip_chars is_dot e)) A.
Proof.
  induction A as [|a A IH]; simpl; [done|].
  by destruct (endswith lowered ("." +:+ strip_chars is_dot a)).
Qed.

(** X2.  On allowlists whose entries are lowercase and have no dot at
    either end, the classifier is the specification's: scheme http or https
    and a case-insensitive suffix match of the query-stripped URL against
    "." followed by an extension. *)
Lemma is_direct_file_url_clean (url : string) (A : list string) :
  Forall Spec.clean_extension A ->
  _is_direct_file_url url A = Spec.is_direct_file url A.
Proof.
  intros HA. rewrite is_direct_file_url_unfold. unfold Spec.is_direct_file.
  f_equal. rewrite any_ext_existsb. apply existsb_ext.
  eapply Forall_impl; [exact HA|]. intros e (Hl & Hls & Hrs). simpl.
  unfold Spec.endswith_ci, Spec.normalize_extension, strip_chars.
  rewrite Hl, Hls, Hrs, lower_app, Hl. reflexivity.
Qed.

End Classifier.

(** * The content-type prober and the page link extractor *)

Section Extractor.

Context (w : World).

Ltac run := unfold bind, ret, raise, lift, try_except, call, Exception in *.

Lemma head_content_type_run (url : string) (t : nat) :
  exists o, _head_content_type w url t = (Ret o, S t) /\
            (Spec.probe_fails (requests_head w t url) -> o = None).
Proof.
  unfold _head_content_type. run.
  destruct (requests_head w t url) as [response|e]; simpl.
  - destruct (header_content_type response) as [ctype|]; simpl.
    + destruct (truthy ctype) eqn:Hc; eexists; (split; [reflexivity|]).
      * intros ->. done.
      * done.
    + by eexists.
  - by eexists.
Qed.

Lemma absolute_links_loop_run (url : string) (links acc : list string) (t : nat) :
  absolute_links_loop w url links acc t =
  (Ret (acc ++ flat_map (Spec.resolve w url) links), t).
Proof.
  revert acc. induction links as [|href rest IH]; intros acc; simpl.
  - run. by rewrite app_nil_r.
  - unfold Spec.resolve at 1.
    destruct (startswith href "http://" || startswith href "https://").
    { rewrite IH. by rewrite <- app_assoc. }
    destruct (startswith href "//").
    { rewrite IH. by rewrite <- app_assoc. }
    destruct (startswith href "/").
    + unfold bind at 1. unfold try_except, bind, lift, ret, Exception.
      destruct (urljoin w url href) as [joined|e]; rewrite IH.
      * by rewrite <- app_assoc.
      * done.
    + by rewrite IH.
Qed.

(** C7.  On a page that was fetched and parsed, the result is the
    concatenation, in document order, of what each hyperlink target
    resolves to: itself when it starts with "http://" or "https://",
    "https:" followed by it when it starts with "//", its join with the
    page URL when it starts with "/", and nothing otherwise. *)
Theorem extract_links_resolves (url : string) (t : nat)
    (response : Response) (links : list string) :
  requests_get w t url = Ret response ->
  ok response = true ->
  find_all_a_href w (text response) = Ret links ->
  _extract_links_from_page w url t = (Ret (flat_map (Spec.resolve w url) links), S t).
Proof.
  intros Hget Hok Hparse. unfold _extract_links_from_page.
  unfold try_except, bind at 1. unfold call. rewrite Hget, Hok. simpl.
  unfold bind, lift. rewrite Hparse, absolute_links_loop_run. reflexivity.
Qed.

(** C6 (as amended).  The extractor always returns; it returns the empty
    list when the request raises, when the status is in 400..599, and when
    parsing raises. *)
Theorem extract_links_never_raises (url : string) (t : nat) :
  exists links, _extract_links_from_page w url t = (Ret links, S t) /\
    (forall e, requests_get w t url = Raise e -> links = []) /\
    (forall response, requests_get w t url = Ret response ->
       400 <= status_code response < 600 -> links = []) /\
    (forall response e, requests_get w t url = Ret response ->
       find_all_a_href w (text response) = Raise e -> links = []).
Proof.
  unfold _extract_links_from_page.
  unfold try_except, bind at 1. unfold call.
  destruct (requests_get w t url) as [response|e] eqn:Hget.
  - destruct (ok response) eqn:Hok; simpl.
    + unfold bind, lift.
      destruct (find_all_a_href w (text response)) as [links|e] eqn:Hparse.
      * rewrite absolute_links_loop_run. eexists. split; [reflexivity|].
        split; [done|]. split; [|intros ? ? [= <-]; congruence].
        intros ? [= <-] Hst. unfold ok in Hok. lia.
      * unfold Exception, ret. eexists. split; [reflexivity|]. done.
    + unfold ret. eexists. split; [reflexivity|]. done.
  - unfold Exception, ret. eexists. split; [reflexivity|]. done.
Qed.

End Extractor.

(** * Deduplication *)

Section Dedup.

Implicit Types (l : list Candidate) (c : Candidate) (u : string).

Lemma first_occurrences_filter (P : Candidate -> Prop) `{!forall c, Decision (P c)} l :
  (forall x y, direct_url x = direct_url y -> P x -> P y) ->
  filter P (Spec.first_occurrences l) = Spec.first_occurrences (filter P l).
Proof.
  intros HP. induction l as [|c l IH]; [done|]. simpl.
  destruct (decide (P c)) as [Hc|Hc].
  - rewrite !filter_cons_True by done. simpl. f_equal.
    rewrite <- IH, !list_filter_filter. apply list_filter_iff. tauto.
  - rewrite !filter_cons_False by done. rewrite <- IH, list_filter_filter.
    apply list_filter_iff. intros x. split; [tauto|].
    intros Hx. split; [done|]. intros Heq. apply Hc. by apply (HP x).
Qed.

(** The loop of the pipeline computes the first occurrences. *)
Lemma deduplicate_first_occurrences l (seen : gset string) (acc : list Candidate) :
  Forall (fun c => truthy (direct_url c) = true) l ->
  deduplicate l seen acc =
  acc ++ Spec.first_occurrences (filter (fun c => direct_url c ∉ seen) l).
Proof.
  intros Hl. revert seen acc.
  induction Hl as [|c l Hc _ IH]; intros seen acc; simpl.
  - by rewrite app_nil_r.
  - rewrite Hc. simpl. case_bool_decide as Hseen.
    + rewrite filter_cons_False by tauto. apply IH.
    + rewrite filter_cons_True by done. simpl.
      rewrite IH, <- app_assoc. simpl. do 2 f_equal.
      rewrite first_occurrences_filter by congruence.
      f_equal. rewrite list_filter_filter. apply list_filter_iff.
      intros x. rewrite not_elem_of_union, not_elem_of_singleton. tauto.
Qed.

Lemma first_occurrences_sublist l : Spec.first_occurrences l `sublist_of` l.
Proof.
  induction l as [|c l IH]; simpl; [done|].
  apply sublist_skip. etrans; [apply sublist_filter | exact IH].
Qed.

Lemma first_occurrences_NoDup l : NoDup (direct_url <$> Spec.first_occurrences l).
Proof.
  induction l as [|c l IH]; simpl; [constructor|].
  apply NoDup_cons. split.
  - rewrite list_elem_of_fmap. intros (x & Hx & Hin).
    apply list_elem_of_filter in Hin as [Hne _]. congruence.
  - eapply sublist_NoDup; [exact IH|].
    apply fmap_sublist, sublist_filter.
Qed.

Lemma first_occurrences_urls l u :
  u ∈ direct_url <$> Spec.first_occurrences l <-> u ∈ direct_url <$> l.
Proof.
  induction l as [|c l IH]; simpl; [done|].
  rewrite !elem_of_cons, <- IH, !list_elem_of_fmap.
  split.
  - intros [->|(x & -> & Hx)]; [by left|].
    apply list_elem_of_filter in Hx as [_ Hx]. right. by exists x.
  - intros [->|(x & -> & Hx)]; [by left|].
    destruct (decide (direct_url x = direct_url c)) as [Heq|Hne]; [by left|].
    right. exists x. split; [done|]. by apply list_elem_of_filter.
Qed.

Lemma first_occurrences_single (l1 l2 : list Candidate) c :
  (forall x, x ∈ l1 -> direct_url x ≠ direct_url c) ->
  filter (fun x => direct_url x = direct_url c)
         (Spec.first_occurrences (l1 ++ c :: l2)) = [c].
Proof.
  induction l1 as [|a l1 IH]; intros Hl1; simpl.
  - rewrite filter_cons_True by done. f_equal.
    rewrite list_filter_filter.
    apply elem_of_nil_inv. intros x Hx.
    apply list_elem_of_filter in Hx as [[? ?] _]. done.
  - rewrite filter_cons_False by (apply Hl1; left).
    trans (filter (fun x => direct_url x ≠ direct_url a)
             (filter (fun x => direct_url x = direct_url c)
                (Spec.first_occurrences (l1 ++ c :: l2)))).
    { rewrite !list_filter_filter. apply list_filter_iff. tauto. }
    rewrite IH by (intros x Hx; apply Hl1; by right).
    rewrite filter_cons_True; [done|].
    intros Heq. by apply (Hl1 a); [left|].
Qed.

Lemma first_with_url l u :
  u ∈ direct_url <$> l ->
  exists l1 c l2, l = l1 ++ c :: l2 /\ direct_url c = u /\
                  forall x, x ∈ l1 -> direct_url x ≠ u.
Proof.
  induction l as [|a l IH]; simpl; [by intros ?%elem_of_nil|].
  intros Hu. destruct (decide (direct_url a = u)) as [Ha|Ha].
  - exists [], a, l. split; [done|]. split; [done|]. by intros x ?%elem_of_nil.
  - apply elem_of_cons in Hu as [Hu|Hu]; [congruence|].
    destruct (IH Hu) as (l1 & c & l2 & -> & Hc & Hl1).
    exists (a :: l1), c, l2. split; [done|]. split; [done|].
    intros x [->|Hx]%elem_of_cons; auto.
Qed.

End Dedup.

(** * The candidate pipeline *)

Section Phases.

Context (w : World) (exts : list string).

Lemma extract_links_total (url : string) (t : nat) :
  exists links, _extract_links_from_page w url t = (Ret links, S t).
Proof.
  unfold _extract_links_from_page.
  unfold try_except, bind at 1. unfold call.
  destruct (requests_get w t url) as [response|e]; [|by eexists].
  destruct (ok response); simpl; [|by eexists].
  unfold bind, lift.
  destruct (find_all_a_href w (text response)) as [links|e]; [|by eexists].
  rewrite absolute_links_loop_run. by eexists.
Qed.

Lemma direct_links_run (hits : list SearchHit) (cands : list Candidate) (t : nat) :
  exists new t', direct_links w exts hits cands t = (Ret (cands ++ new), t') /\
    Forall (Spec.emitted w exts MatchedResult) new /\
    direct_url <$> new = filter (fun u => _is_direct_file_url u exts = true) (href <$> hits).
Proof.
  revert cands t. induction hits as [|r hits IH]; intros cands t; simpl.
  - exists [], t. by rewrite app_nil_r.
  - destruct (_is_direct_file_url (href r) exts) eqn:Hd.
    + destruct (head_content_type_run w (href r) t) as (o & Ho & _).
      unfold bind at 1. rewrite Ho.
      match goal with |- context [cands ++ [?c]] =>
        destruct (IH (cands ++ [c]) (S t)) as (new & t' & Hrun & Hem & Hurls);
        exists (c :: new), t'
      end.
      rewrite Hrun, <- app_assoc. split; [done|]. split.
      * constructor; [|done]. split; [done|]. split; [done|]. by exists t, o.
      * rewrite filter_cons_True by done. rewrite fmap_cons, Hurls. done.
    + destruct (IH cands t) as (new & t' & Hrun & Hem & Hurls).
      exists new, t'. by rewrite filter_cons_False by congruence.
Qed.

Lemma page_links_loop_run (r : SearchHit) (links : list string)
    (cands : list Candidate) (t : nat) :
  exists new t', page_links_loop w exts r links cands t = (Ret (cands ++ new), t') /\
    Forall (Spec.emitted w exts FoundOnPage) new /\
    Forall (fun c => source_page c = href r) new /\
    direct_url <$> new = filter (fun u => _is_direct_file_url u exts = true) links.
Proof.
  revert cands t. induction links as [|link links IH]; intros cands t; simpl.
  - exists [], t. by rewrite app_nil_r.
  - destruct (_is_direct_file_url link exts) eqn:Hd.
    + destruct (head_content_type_run w link t) as (o & Ho & _).
      unfold bind at 1. rewrite Ho.
      match goal with |- context [cands ++ [?c]] =>
        destruct (IH (cands ++ [c]) (S t)) as (new & t' & Hrun & Hem & Hsrc & Hurls);
        exists (c :: new), t'
      end.
      rewrite Hrun, <- app_assoc. split; [done|]. split; [|split].
      * constructor; [|done]. split; [done|]. split; [done|]. by exists t, o.
      * by constructor.
      * rewrite filter_cons_True by done. rewrite fmap_cons, Hurls. done.
    + destruct (IH cands t) as (new & t' & Hrun & Hem & Hsrc & Hurls).
      exists new, t'. by rewrite filter_cons_False by congruence.
Qed.

Lemma result_pages_run (hits : list SearchHit) (cands : list Candidate) (t : nat) :
  exists new t', result_pages w exts hits cands t = (Ret (cands ++ new), t') /\
    Forall (Spec.emitted w exts FoundOnPage) new /\
    forall r, r ∈ hits -> Spec.has_http_scheme (href r) = true ->
      exists tk links, _extract_links_from_page w (href r) tk = (Ret links, S tk) /\
        forall link, link ∈ links -> _is_direct_file_url link exts = true ->
          exists c, c ∈ new /\ direct_url c = link /\ source_page c = href r.
Proof.
  revert cands t. induction hits as [|r hits IH]; intros cands t; cbn [result_pages].
  - exists [], t. rewrite app_nil_r. split; [done|]. split; [done|].
    by intros r ?%elem_of_nil.
  - rewrite startswith_any_schemes.
    destruct (Spec.has_http_scheme (href r)) eqn:Hs.
    + rewrite (has_http_scheme_truthy _ Hs). simpl.
      destruct (extract_links_total (href r) t) as (links & Hx).
      unfold bind at 1. unfold try_except at 1. rewrite Hx.
      destruct (page_links_loop_run r links cands (S t))
        as (new1 & t1 & Hrun1 & Hem1 & Hsrc1 & Hurls1).
      unfold bind at 1. rewrite Hrun1.
      destruct (IH (cands ++ new1) t1) as (new2 & t' & Hrun2 & Hem2 & Hex2).
      exists (new1 ++ new2), t'. rewrite Hrun2, <- app_assoc.
      split; [done|]. split; [by apply Forall_app|].
      intros r' [->|Hr']%elem_of_cons Hs'.
      * exists t, links. split; [done|]. intros link Hlink Hd.
        assert (link ∈ direct_url <$> new1) as (c & -> & Hc)%list_elem_of_fmap.
        { rewrite Hurls1. by apply list_elem_of_filter. }
        exists c. split; [apply elem_of_app; by left|]. split; [done|].
        by eapply Forall_forall in Hsrc1.
      * destruct (Hex2 r' Hr' Hs') as (tk & links' & Hx' & Hall).
        exists tk, links'. split; [done|]. intros link Hlink Hd.
        destruct (Hall link Hlink Hd) as (c & Hc & Hu & Hsp).
        exists c. split; [apply elem_of_app; by right|]. done.
    + rewrite orb_true_r.
      destruct (IH cands t) as (new & t' & Hrun & Hem & Hex).
      exists new, t'. split; [done|]. split; [done|].
      intros r' [->|Hr']%elem_of_cons Hs'; [congruence|]. by apply Hex.
Qed.

(** One run of the pipeline once the search has returned. *)
Lemma pipeline_phases (hits : list SearchHit) (t1 : nat) :
  exists A B t2 t',
    direct_links w exts hits [] t1 = (Ret A, t2) /\
    result_pages w exts hits A t2 = (Ret (A ++ B), t') /\
    Forall (Spec.emitted w exts MatchedResult) A /\
    Forall (Spec.emitted w exts FoundOnPage) B /\
    direct_url <$> A = filter (fun u => _is_direct_file_url u exts = true) (href <$> hits) /\
    (forall r, r ∈ hits -> Spec.has_http_scheme (href r) = true ->
      exists tk links, _extract_links_from_page w (href r) tk = (Ret links, S tk) /\
        forall link, link ∈ links -> _is_direct_file_url link exts = true ->
          exists c, c ∈ B /\ direct_url c = link /\ source_page c = href r).
Proof.
  destruct (direct_links_run hits [] t1) as (A & t2 & HA & HemA & HurlA).
  destruct (result_pages_run hits A t2) as (B & t' & HB & HemB & HexB).
  exists A, B, t2, t'. done.
Qed.

Lemma emitted_truthy (rsn : string) (c : Candidate) :
  Spec.emitted w exts rsn c -> truthy (direct_url c) = true.
Proof.
  intros (_ & Hd & _). rewrite is_direct_file_url_unfold in Hd.
  apply andb_true_iff in Hd as [Hs _]. by apply has_http_scheme_truthy.
Qed.

End Phases.

Lemma perform_search_and_extract_unfold (w : World) (query : string)
    (extra_terms preferred_extensions : option (list string)) (max_results : Z) (t : nat) :
  perform_search_and_extract w query extra_terms preferred_extensions max_results t =
  let exts := default default_extensions preferred_extensions in
  match _search_web w (enriched_query query (default [] extra_terms)) max_results t with
  | (Raise e, t1) => (Raise e, t1)
  | (Ret hits, t1) =>
      match direct_links w exts hits [] t1 with
      | (Raise e, t2) => (Raise e, t2)
      | (Ret A, t2) =>
          match result_pages w exts hits A t2 with
          | (Raise e, t') => (Raise e, t')
          | (Ret AB, t') => (Ret (deduplicate AB ∅ []), t')
          end
      end
  end.
Proof.
  unfold perform_search_and_extract. unfold bind at 1. simpl.
  destruct (_search_web _ _ _ _) as [[hits|e] t1]; [|done].
  unfold bind at 1. destruct (direct_links _ _ _ _ _) as [[A|e] t2]; [|done].
  unfold bind at 1. by destruct (result_pages _ _ _ _ _) as [[AB|e] t'].
Qed.

(** * Worlds that differ only in their answers to probes *)

Section TwoWorlds.

Context (w w' : World) (Hsame : Spec.same_but_probe w w') (exts : list string).

Lemma resolve_same (url href : string) :
  Spec.resolve w url href = Spec.resolve w' url href.
Proof.
  destruct Hsame as (_ & _ & _ & Hjoin).
  unfold Spec.resolve. by rewrite Hjoin.
Qed.

Lemma extract_links_same (url : string) (t : nat) :
  _extract_links_from_page w url t = _extract_links_from_page w' url t.
Proof.
  destruct Hsame as (_ & Hget & Hparse & _).
  unfold _extract_links_from_page.
  unfold try_except, bind at 1 3. unfold call. rewrite Hget.
  destruct (requests_get w' t url) as [response|e]; [|done].
  destruct (ok response); simpl; [|done].
  unfold bind, lift. rewrite Hparse.
  destruct (find_all_a_href w' (text response)) as [links|e]; [|done].
  rewrite !absolute_links_loop_run. do 3 f_equal.
  induction links as [|href links IH]; simpl; [done|].
  by rewrite resolve_same, IH.
Qed.

Lemma direct_links_same (hits : list SearchHit) (cands cands' : list Candidate) (t : nat) :
  Spec.provenance <$> cands = Spec.provenance <$> cands' ->
  exists out out' t',
    direct_links w exts hits cands t = (Ret out, t') /\
    direct_links w' exts hits cands' t = (Ret out', t') /\
    Spec.provenance <$> out = Spec.provenance <$> out'.
Proof.
  revert cands cands' t.
  induction hits as [|r hits IH]; intros cands cands' t Hp; cbn [direct_links].
  - by exists cands, cands', t.
  - destruct (_is_direct_file_url (href r) exts); [|by apply IH].
    destruct (head_content_type_run w (href r) t) as (o & Ho & _).
    destruct (head_content_type_run w' (href r) t) as (o' & Ho' & _).
    unfold bind at 1 2. rewrite Ho, Ho'. apply IH.
    by rewrite !fmap_app, Hp.
Qed.

Lemma page_links_loop_same (r : SearchHit) (links : list string)
    (cands cands' : list Candidate) (t : nat) :
  Spec.provenance <$> cands = Spec.provenance <$> cands' ->
  exists out out' t',
    page_links_loop w exts r links cands t = (Ret out, t') /\
    page_links_loop w' exts r links cands' t = (Ret out', t') /\
    Spec.provenance <$> out = Spec.provenance <$> out'.
Proof.
  revert cands cands' t.
  induction links as [|link links IH]; intros cands cands' t Hp; cbn [page_links_loop].
  - by exists cands, cands', t.
  - destruct (_is_direct_file_url link exts); [|by apply IH].
    destruct (head_content_type_run w link t) as (o & Ho & _).
    destruct (head_content_type_run w' link t) as (o' & Ho' & _).
    unfold bind at 1 2. rewrite Ho, Ho'. apply IH.
    by rewrite !fmap_app, Hp.
Qed.

Lemma result_pages_same (hits : list SearchHit) (cands cands' : list Candidate) (t : nat) :
  Spec.provenance <$> cands = Spec.provenance <$> cands' ->
  exists out out' t',
    result_pages w exts hits cands t = (Ret out, t') /\
    result_pages w' exts hits cands' t = (Ret out', t') /\
    Spec.provenance <$> out = Spec.provenance <$> out'.
Proof.
  revert cands cands' t.
  induction hits as [|r hits IH]; intros cands cands' t Hp; cbn [result_pages].
  - by exists cands, cands', t.
  - destruct (negb (truthy (href r)) || negb (startswith_any (href r) ALLOWED_SCHEMES));
      [by apply IH|].
    destruct (extract_links_total w' (href r) t) as (links & Hx).
    unfold bind at 1 3. unfold try_except at 1 2.
    rewrite extract_links_same, Hx.
    destruct (page_links_loop_same r links cands cands' (S t) Hp)
      as (out1 & out1' & t1 & Hrun & Hrun' & Hp1).
    unfold bind at 1 2. rewrite Hrun, Hrun'. by apply IH.
Qed.

End TwoWorlds.

Lemma deduplicate_provenance (l l' : list Candidate) (seen : gset string)
    (acc acc' : list Candidate) :
  Spec.provenance <$> l = Spec.provenance <$> l' ->
  Spec.provenance <$> acc = Spec.provenance <$> acc' ->
  Spec.provenance <$> deduplicate l seen acc = Spec.provenance <$> deduplicate l' seen acc'.
Proof.
  revert l' seen acc acc'.
  induction l as [|c l IH]; intros [|c' l'] seen acc acc' Hl Hacc;
    rewrite ?fmap_cons in Hl; try discriminate; [done|].
  assert (Spec.provenance c = Spec.provenance c') as Hc by congruence.
  assert (Spec.provenance <$> l = Spec.provenance <$> l') as Hl' by congruence.
  assert (direct_url c = direct_url c') as Hu.
  { unfold Spec.provenance in Hc. congruence. }
  cbn [deduplicate]. rewrite Hu.
  destruct (negb (truthy (direct_url c')) || bool_decide (direct_url c' ∈ seen)).
  - by apply IH.
  - apply IH; [done|]. by rewrite !fmap_app, Hacc, !fmap_cons, Hc.
Qed.

(** * The pipeline as a whole *)

Lemma deduplicate_initial (l : list Candidate) :
  Forall (fun c => truthy (direct_url c) = true) l ->
  deduplicate l ∅ [] = Spec.first_occurrences l.
Proof.
  intros Hl. rewrite (deduplicate_first_occurrences _ _ _ Hl), app_nil_l.
  f_equal. clear Hl. induction l as [|c l IH]; [done|].
  rewrite filter_cons_True by set_solver. by rewrite IH.
Qed.

Section Pipeline.

Context (w : World) (query : string)
  (extra_terms preferred_extensions : option (list string)) (max_results : Z).

Local Abbreviation exts := (default default_extensions preferred_extensions).
Local Abbreviation enriched := (enriched_query query (default [] extra_terms)).

(** C1 (as amended).  When the search adapter returns no hit the pipeline
    returns the empty list; when the adapter raises, the pipeline raises the
    same error. *)
Theorem search_failure_propagates (t : nat) :
  (forall t1, _search_web w enriched max_results t = (Ret [], t1) ->
     perform_search_and_extract w query extra_terms preferred_extensions max_results t
     = (Ret [], t1)) /\
  (forall e t1, _search_web w enriched max_results t = (Raise e, t1) ->
     perform_search_and_extract w query extra_terms preferred_extensions max_results t
     = (Raise e, t1)).
Proof.
  split; intros; rewrite perform_search_and_extract_unfold; cbv zeta;
    by rewrite H.
Qed.

(** C2.  The returned list is the phase A candidates followed by the phase
    B candidates with every later duplicate of a [direct_url] removed: no
    URL occurs twice, the kept candidates keep their order, no URL is lost,
    and the one candidate left for the URL of a direct hit is the direct
    hit, whatever the pages repeat. *)
Theorem pipeline_deduplicates (t : nat) (out : list Candidate) (t' : nat) :
  perform_search_and_extract w query extra_terms preferred_extensions max_results t
  = (Ret out, t') ->
  exists hits t1 A B t2,
    _search_web w enriched max_results t = (Ret hits, t1) /\
    direct_links w exts hits [] t1 = (Ret A, t2) /\
    result_pages w exts hits A t2 = (Ret (A ++ B), t') /\
    Forall (fun c => reason c = MatchedResult) A /\
    Forall (fun c => reason c = FoundOnPage) B /\
    out = Spec.first_occurrences (A ++ B) /\
    NoDup (direct_url <$> out) /\
    out `sublist_of` A ++ B /\
    (forall u, u ∈ direct_url <$> A ++ B -> u ∈ direct_url <$> out) /\
    (forall a, a ∈ A ->
       exists c, filter (fun x => direct_url x = direct_url a) out = [c] /\
                 reason c = MatchedResult).
Proof.
  rewrite perform_search_and_extract_unfold. cbv zeta.
  destruct (_search_web w enriched max_results t) as [[hits|e] t1]; [|done].
  destruct (pipeline_phases w exts hits t1)
    as (A & B & t2 & t'' & HA & HB & HemA & HemB & _ & _).
  rewrite HA, HB. intros [= <- <-].
  assert (Forall (fun c => truthy (direct_url c) = true) (A ++ B)) as Htruthy.
  { apply Forall_app. split; (eapply Forall_impl; [eassumption|]);
      intros c; apply emitted_truthy. }
  rewrite (deduplicate_initial _ Htruthy).
  exists hits, t1, A, B, t2.
  split; [done|]. split; [done|]. split; [done|].
  split; [eapply Forall_impl; [exact HemA|]; by intros c (? & _)|].
  split; [eapply Forall_impl; [exact HemB|]; by intros c (? & _)|].
  split; [done|].
  split; [apply first_occurrences_NoDup|].
  split; [apply first_occurrences_sublist|].
  split; [intros u; apply first_occurrences_urls|].
  intros a Ha.
  destruct (first_with_url A (direct_url a)) as (l1 & c & l2 & -> & Hc & Hl1).
  { by apply list_elem_of_fmap_2. }
  exists c. split.
  - rewrite <- Hc, <- app_assoc, <- app_comm_cons.
    apply first_occurrences_single. intros x Hx. rewrite Hc. by apply Hl1.
  - eapply Forall_forall in HemA as (? & _); [done|].
    apply elem_of_app. right. by left.
Qed.

(** C8.  Once the search has returned, the pipeline returns.  The prober
    always returns, and returns nothing when the request raises or carries no
    content type.  Every hit that the classifier accepts and every link
    extracted from a result page that it accepts has a candidate in the
    output; a candidate whose probes all fail carries the empty content
    type; and in a world that answers probes differently the output is the
    same but for content types. *)
Theorem probe_failure_keeps_candidates (t : nat) (hits : list SearchHit) (t1 : nat) :
  _search_web w enriched max_results t = (Ret hits, t1) ->
  exists out t',
    perform_search_and_extract w query extra_terms preferred_extensions max_results t
    = (Ret out, t') /\
    (forall url tk, exists o,
       _head_content_type w url tk = (Ret o, S tk) /\
       (Spec.probe_fails (requests_head w tk url) -> o = None)) /\
    (forall r, r ∈ hits -> _is_direct_file_url (href r) exts = true ->
       exists c, c ∈ out /\ direct_url c = href r) /\
    (forall r, r ∈ hits -> Spec.has_http_scheme (href r) = true ->
       exists tk links,
         _extract_links_from_page w (href r) tk = (Ret links, S tk) /\
         forall link, link ∈ links -> _is_direct_file_url link exts = true ->
           exists c, c ∈ out /\ direct_url c = link) /\
    (forall c, c ∈ out ->
       (forall tk, Spec.probe_fails (requests_head w tk (direct_url c))) ->
       content_type c = "") /\
    (forall w', Spec.same_but_probe w w' ->
       exists out',
         perform_search_and_extract w' query extra_terms preferred_extensions max_results t
         = (Ret out', t') /\
         Spec.provenance <$> out' = Spec.provenance <$> out).
Proof.
  intros Hsearch.
  destruct (pipeline_phases w exts hits t1)
    as (A & B & t2 & t' & HA & HB & HemA & HemB & HurlA & HexB).
  assert (Forall (fun c => truthy (direct_url c) = true) (A ++ B)) as Htruthy.
  { apply Forall_app. split; (eapply Forall_impl; [eassumption|]);
      intros c; apply emitted_truthy. }
  assert (deduplicate (A ++ B) ∅ [] = Spec.first_occurrences (A ++ B)) as Hout.
  { by apply deduplicate_initial. }
  assert (forall u, u ∈ direct_url <$> A ++ B ->
            exists c, c ∈ deduplicate (A ++ B) ∅ [] /\ direct_url c = u) as Hkeep.
  { intros u Hu. rewrite Hout. apply first_occurrences_urls in Hu.
    apply list_elem_of_fmap in Hu as (c & -> & Hc). by exists c. }
  exists (deduplicate (A ++ B) ∅ []), t'.
  split; [|split; [|split; [|split; [|split]]]].
  - rewrite perform_search_and_extract_unfold. cbv zeta.
    by rewrite Hsearch, HA, HB.
  - intros url tk. apply head_content_type_run.
  - intros r Hr Hd. apply Hkeep. rewrite fmap_app, elem_of_app. left.
    rewrite HurlA. apply list_elem_of_filter. split; [done|].
    by apply list_elem_of_fmap_2.
  - intros r Hr Hs. destruct (HexB r Hr Hs) as (tk & links & Hx & Hall).
    exists tk, links. split; [done|]. intros link Hlink Hd.
    destruct (Hall link Hlink Hd) as (c & Hc & Hu & _).
    apply Hkeep. rewrite fmap_app, elem_of_app. right.
    rewrite <- Hu. by apply list_elem_of_fmap_2.
  - intros c Hc Hfail. rewrite Hout in Hc.
    assert (c ∈ A ++ B) as Hin.
    { eapply elem_of_sublist; [exact Hc | apply first_occurrences_sublist]. }
    assert (exists rsn, Spec.emitted w exts rsn c) as (rsn & _ & _ & tk & o & Hrun & ->).
    { apply elem_of_app in Hin as [Hin|Hin].
      - exists MatchedResult. by eapply Forall_forall in HemA.
      - exists FoundOnPage. by eapply Forall_forall in HemB. }
    destruct (head_content_type_run w (direct_url c) tk) as (o' & Hrun' & Hnone).
    rewrite Hrun in Hrun'. injection Hrun' as <-. by rewrite (Hnone (Hfail tk)).
  - intros w' Hsame.
    assert (_search_web w' enriched max_results t = (Ret hits, t1)) as Hsearch'.
    { destruct Hsame as (Hddg & _). revert Hsearch.
      unfold _search_web, bind, call. by rewrite Hddg. }
    destruct (direct_links_same w w' exts hits [] [] t1 eq_refl)
      as (A1 & A' & t2' & HA1 & HA' & HpA).
    rewrite HA in HA1. injection HA1 as <- <-.
    destruct (result_pages_same w w' Hsame exts hits A A' t2 HpA)
      as (AB & AB' & t3 & HAB & HAB' & HpAB).
    rewrite HB in HAB. injection HAB as <- <-.
    exists (deduplicate AB' ∅ []). split.
    + rewrite perform_search_and_extract_unfold. cbv zeta.
      by rewrite Hsearch', HA', HAB'.
    + by apply deduplicate_provenance.
Qed.

End Pipeline.

(** * The search module on the concrete worlds *)

(** C1, the claim as stated fails: when the backend raises, so does the
    pipeline. *)
Lemma backend_failure_raises :
  _search_web Examples.backend_down
    "operating systems textbook download direct link" 10 0%nat
  = (Raise (Error "RatelimitException" "202 Ratelimit"), 1%nat) /\
  perform_search_and_extract Examples.backend_down "operating systems textbook"
    (Some ["download"; "direct link"]) (Some ["pdf"]) 10 0%nat
  = (Raise (Error "RatelimitException" "202 Ratelimit"), 1%nat).
Proof. split; reflexivity. Qed.

Lemma search_failure_propagates_witness :
  perform_search_and_extract Examples.no_results "operating systems textbook"
    None None 10 0%nat = (Ret [], 1%nat) /\
  perform_search_and_extract Examples.backend_down "operating systems textbook"
    None None 10 0%nat = (Raise (Error "RatelimitException" "202 Ratelimit"), 1%nat).
Proof.
  split.
  - apply (proj1 (search_failure_propagates Examples.no_results
                    "operating systems textbook" None None 10 0%nat)).
    reflexivity.
  - apply (proj2 (search_failure_propagates Examples.backend_down
                    "operating systems textbook" None None 10 0%nat)).
    reflexivity.
Defined.

Lemma pipeline_deduplicates_witness :
  perform_search_and_extract Examples.course_site "operating systems textbook"
    (Some ["download"; "direct link"]) (Some ["pdf"]) 10 0%nat
  = (Ret Examples.course_output, 7%nat) /\
  NoDup (direct_url <$> Examples.course_output) /\
  Examples.course_output = Spec.first_occurrences
    ([ {| c_title := "Operating Systems"; source_page := "https://example.edu/os.pdf";
          direct_url := "https://example.edu/os.pdf"; reason := MatchedResult;
          content_type := "" |} ] ++
     [ {| c_title := "Course page"; source_page := "https://example.edu/course";
          direct_url := "https://example.edu/os.pdf"; reason := FoundOnPage;
          content_type := "" |};
       {| c_title := "Course page"; source_page := "https://example.edu/course";
          direct_url := "https://example.edu/os.pdf"; reason := FoundOnPage;
          content_type := "" |};
       {| c_title := "Course page"; source_page := "https://example.edu/course";
          direct_url := "https://cdn.example.edu/slides.pdf"; reason := FoundOnPage;
          content_type := "" |} ]).
Proof.
  assert (perform_search_and_extract Examples.course_site "operating systems textbook"
            (Some ["download"; "direct link"]) (Some ["pdf"]) 10 0%nat
          = (Ret Examples.course_output, 7%nat)) as Hrun by reflexivity.
  split; [exact Hrun|].
  destruct (pipeline_deduplicates _ _ _ _ _ _ _ _ Hrun)
    as (hits & t1 & A & B & t2 & Hs & HA & HB & _ & _ & Hout & Hnd & _).
  split; [exact Hnd|].
  vm_compute in Hs. simplify_eq.
  vm_compute in HA. simplify_eq.
  vm_compute in HB. simplify_eq. exact Hout.
Defined.

Lemma probe_failure_keeps_candidates_witness :
  exists out t',
    perform_search_and_extract Examples.course_site "operating systems textbook"
      (Some ["download"; "direct link"]) (Some ["pdf"]) 10 0%nat = (Ret out, t') /\
    (exists c, c ∈ out /\ direct_url c = "https://example.edu/os.pdf") /\
    (forall c, c ∈ out ->
       (forall tk, Spec.probe_fails (requests_head Examples.course_site tk (direct_url c))) ->
       content_type c = "").
Proof.
  destruct (probe_failure_keeps_candidates Examples.course_site
              "operating systems textbook" (Some ["download"; "direct link"])
              (Some ["pdf"]) 10 0%nat (map hit_of_result Examples.course_hits) 1%nat eq_refl)
    as (out & t' & Hrun & _ & Hdirect & _ & Hct & _).
  exists out, t'. split; [exact Hrun|]. split; [|exact Hct].
  apply (Hdirect (hit_of_result {| get_title := Some "Operating Systems";
                                   get_href := Some "https://example.edu/os.pdf";
                                   get_body := Some "The textbook." |})).
  - left.
  - reflexivity.
Defined.

(** The specification's end-to-end scenario. *)
Lemma end_to_end_scenario :
  perform_search_and_extract Examples.one_hit "operating systems textbook"
    None (Some ["pdf"]) 10 0%nat
  = (Ret [ {| c_title := "Operating Systems";
              source_page := "https://example.edu/os.pdf";
              direct_url := "https://example.edu/os.pdf";
              reason := MatchedResult;
              content_type := "" |} ], 3%nat).
Proof. reflexivity. Qed.

Lemma extract_links_resolves_witness :
  _extract_links_from_page Examples.course_site "https://example.edu/course" 3%nat
  = (Ret ["https://example.edu/os.pdf"; "https://example.edu/os.pdf";
          "https://cdn.example.edu/slides.pdf"], 4%nat).
Proof.
  exact (extract_links_resolves Examples.course_site "https://example.edu/course" 3%nat
           _ _ eq_refl eq_refl eq_refl).
Defined.

(** C6, the claim as stated fails: a status that is neither 2xx nor 3xx,
    but outside 400..599, is parsed like a success. *)
Lemma extract_links_status_999 :
  requests_get Examples.status_999 0%nat "http://p/"
  = Ret {| status_code := 999; header_content_type := None; text := "<a href>" |} /\
  _extract_links_from_page Examples.status_999 "http://p/" 0%nat
  = (Ret ["http://x/a.pdf"], 1%nat).
Proof. split; reflexivity. Qed.

Lemma extract_links_never_raises_witness :
  _extract_links_from_page Examples.backend_down "https://example.edu/course" 0%nat
  = (Ret [], 1%nat).
Proof.
  destruct (extract_links_never_raises Examples.backend_down
              "https://example.edu/course" 0%nat) as (links & Hrun & Hraise & _).
  rewrite Hrun. by rewrite (Hraise _ eq_refl).
Defined.


(** * The download proxy *)

Import Downloader.

Section Generators.


(** A [finally] clause runs once on every way out of a started generator. *)
Lemma drive_try_finally (g : gen) (fin : list event) (c : consumer) :
  c <> NeverIterated ->
  drive (try_finally g fin) c = (fst (drive g c), snd (drive g c) ++ fin).
Proof.
  revert c. induction g as [pre chunk resume IH on_close|pre|pre e]; intros c Hc.
  - destruct c as [|[|n]|]; [| | |done]; cbn [try_finally drive].
    + rewrite IH by done. destruct (drive resume Drain) as [o tr]. simpl.
      by rewrite <- !app_assoc.
    + simpl. by rewrite <- !app_assoc.
    + rewrite IH by done. destruct (drive resume (AbandonAfter n)) as [o tr]. simpl.
      by rewrite <- !app_assoc.
  - by destruct c as [|n|].
  - by destruct c as [|n|].
Qed.

Lemma drive_gen_pre (evs : list event) (g : gen) (c : consumer) :
  c <> NeverIterated ->
  drive (gen_pre evs g) c = (fst (drive g c), evs ++ snd (drive g c)).
Proof.
  intros Hc. destruct g as [pre chunk resume on_close|pre|pre e];
    destruct c as [|[|n]|]; try done; cbn [gen_pre drive].
  - destruct (drive resume Drain) as [o tr]. simpl. by rewrite <- !app_assoc.
  - simpl. by rewrite <- !app_assoc.
  - destruct (drive resume (AbandonAfter n)) as [o tr]. simpl. by rewrite <- !app_assoc.
Qed.

Lemma async_for_yield_gen_pre (evs : list event) (g : gen) :
  async_for_yield (gen_pre evs g) = gen_pre evs (async_for_yield g).
Proof. by destruct g. Qed.


End Generators.

Section Proxy.

Context (w : Upstream) (url : string).


Lemma stream_file_download_invalid :
  Spec.has_http_scheme url = false ->
  stream_file_download w url [] =
  (Raise (Exc (HTTPException 400 "Invalid URL scheme")), []).
Proof.
  intros Hs. unfold stream_file_download.
  change (startswith url "http://" || startswith url "https://")
    with (Spec.has_http_scheme url).
  by rewrite Hs.
Qed.

Lemma stream_file_download_valid :
  Spec.has_http_scheme url = true ->
  stream_file_download w url [] =
  match session_head w url with
  | Raise e =>
      (Raise e, if is_Exception e
                then [SessionOpen; HeadRequest url; SessionClose]
                else [SessionOpen; HeadRequest url])
  | Ret h =>
      if head_status h >=? 400 then
        (Raise (upstream_status (head_status h)),
         [SessionOpen; HeadRequest url; HeadRelease; SessionClose])
      else
        (Ret {| body_iterator := iterator w url;
                media_type := or_else (content_type_of (head_content_type h))
                                      "application/octet-stream";
                headers := [("Content-Disposition",
                             (("attachment; filename=" +:+ dquote)
                              +:+ disposition_name_of url) +:+ dquote)] |},
         [SessionOpen; HeadRequest url; HeadRelease])
  end.
Proof.
  intros Hs. unfold stream_file_download.
  change (startswith url "http://" || startswith url "https://")
    with (Spec.has_http_scheme url).
  rewrite Hs. cbn [negb].
  unfold async_with, await. unfold bind, try_except, emit, lift, raise, ret. simpl.
  destruct (session_head w url) as [h|e]; simpl.
  - by destruct (head_status h >=? 400).
  - by destruct e.
Qed.

End Proxy.

Section ProxyClaims.

Context (w : Upstream) (url : string).

Lemma invocation_invalid (c : consumer) :
  Spec.has_http_scheme url = false ->
  invocation w url c = (Failed (Exc (HTTPException 400 "Invalid URL scheme")), []).
Proof. intros Hs. unfold invocation. by rewrite stream_file_download_invalid. Qed.

Lemma invocation_upstream_error (c : consumer) (h : HeadResponse) :
  Spec.has_http_scheme url = true ->
  session_head w url = Ret h ->
  400 <= head_status h ->
  invocation w url c =
  (Failed (upstream_status (head_status h)),
   [SessionOpen; HeadRequest url; HeadRelease; SessionClose]).
Proof.
  intros Hs Hh Hst. unfold invocation.
  rewrite stream_file_download_valid, Hh by done.
  destruct (Z.geb_spec (head_status h) 400); [done | lia].
Qed.

Lemma invocation_streaming (c : consumer) (h : HeadResponse) :
  Spec.has_http_scheme url = true ->
  session_head w url = Ret h ->
  head_status h < 400 ->
  invocation w url c =
  (fst (drive (iterator w url) c),
   [SessionOpen; HeadRequest url; HeadRelease] ++ snd (drive (iterator w url) c)).
Proof.
  intros Hs Hh Hst. unfold invocation.
  rewrite stream_file_download_valid, Hh by done.
  destruct (Z.geb_spec (head_status h) 400); [lia|].
  cbn [body_iterator]. by destruct (drive (iterator w url) c).
Qed.

(** C4.  A URL that does not start with "http://" or "https://" fails
    with [HTTPException] 400 and no event at all; a probe answered with a
    status of 400 or more fails with [HTTPException] of that status, after
    the session was closed, and no GET request is made however the caller
    would have consumed the body. *)
Theorem invalid_input_and_upstream_error :
  (Spec.has_http_scheme url = false ->
     stream_file_download w url [] =
       (Raise (Exc (HTTPException 400 "Invalid URL scheme")), []) /\
     forall c, snd (invocation w url c) = []) /\
  (Spec.has_http_scheme url = true ->
     forall h, session_head w url = Ret h -> 400 <= head_status h ->
       stream_file_download w url [] =
         (Raise (Exc (HTTPException (head_status h)
                        ("Upstream status " +:+ str (head_status h)))),
          [SessionOpen; HeadRequest url; HeadRelease; SessionClose]) /\
       forall c,
         fst (invocation w url c) =
           Failed (Exc (HTTPException (head_status h)
                          ("Upstream status " +:+ str (head_status h)))) /\
         closes (snd (invocation w url c)) = 1%nat /\
         GetRequest url ∉ snd (invocation w url c)).
Proof.
  split.
  - intros Hs. split; [by apply stream_file_download_invalid|].
    intros c. by rewrite invocation_invalid.
  - intros Hs h Hh Hst. split.
    + rewrite stream_file_download_valid, Hh by done.
      destruct (Z.geb_spec (head_status h) 400); [done | lia].
    + intros c. rewrite (invocation_upstream_error c h) by done.
      split; [done|]. split; [done|]. cbn [snd].
      rewrite !elem_of_cons, elem_of_nil. intros [?|[?|[?|[?|[]]]]]; discriminate.
Qed.



End ProxyClaims.

(** * The disposition name *)

Section Disposition.

Lemma split_without_separator (sep : ascii) (s : string) :
  Spec.contains sep s = false -> split sep s = [s].
Proof.
  induction s as [|c s IH]; simpl; [done|].
  destruct (Ascii.eqb c sep); [done|]. simpl. intros Hs. by rewrite IH.
Qed.

Lemma split_with_separator (sep : ascii) (s : string) :
  Spec.contains sep s = true -> exists p q qs, split sep s = p :: q :: qs.
Proof.
  induction s as [|c s IH]; simpl; [done|].
  destruct (Ascii.eqb c sep); simpl.
  - intros _. destruct (split sep s) as [|q qs] eqn:Hsplit.
    + by destruct s; simpl in Hsplit; repeat case_match.
    + by exists "", q, qs.
  - intros Hs. destruct (IH Hs) as (p & q & qs & ->). by exists (String c p), q, qs.
Qed.

Lemma split_nonempty (sep : ascii) (s : string) : split sep s <> [].
Proof. destruct s as [|c s]; simpl; [done|]. by repeat case_match. Qed.

(** [url.split("/")[-1]] is the text after the last "/". *)
Lemma last_split_slash (url : string) :
  PyStr.last (split "/"%char url) = Spec.last_segment url.
Proof.
  unfold PyStr.last. induction url as [|c s IH]; [done|].
  cbn [split Spec.last_segment].
  destruct (Spec.contains "/"%char s) eqn:Hs.
  - destruct (split_with_separator _ _ Hs) as (p & q & qs & Hsplit).
    rewrite <- IH, Hsplit. by destruct (Ascii.eqb c "/"%char).
  - rewrite (split_without_separator _ _ Hs).
    by destruct (Ascii.eqb c "/"%char).
Qed.

Lemma disposition_name_of_unfold (url : string) :
  disposition_name_of url =
  or_else (Spec.strip_query (Spec.last_segment url)) "download".
Proof. unfold disposition_name_of. by rewrite last_split_slash, first_split_query. Qed.

Lemma contains_slash_query (s : string) :
  Spec.contains "/"%char s =
  Spec.contains "/"%char (Spec.strip_query s) || Spec.contains "/"%char (Spec.after_query s).
Proof.
  induction s as [|c s IH]; [done|]. cbn [Spec.strip_query Spec.after_query].
  destruct (Ascii.eqb_spec c "?"%char) as [->|Hc]; [done|].
  cbn [Spec.contains]. by rewrite IH, orb_assoc.
Qed.

(** X1.  Whenever no "/" follows the first "?" of the URL, the name the
    program puts in the Content-Disposition header is the last path segment
    of the URL with its query string removed, or "download" when that is
    empty. *)
Lemma disposition_name_agrees (url : string) :
  Spec.contains "/"%char (Spec.after_query url) = false ->
  disposition_name_of url = Spec.disposition_name url.
Proof.
  intros Hq. rewrite disposition_name_of_unfold. unfold Spec.disposition_name.
  f_equal. induction url as [|c s IH]; [done|].
  cbn [Spec.last_segment Spec.strip_query Spec.after_query] in *.
  destruct (Ascii.eqb_spec c "?"%char) as [->|Hc].
  - rewrite Hq. done.
  - cbn [Spec.last_segment]. rewrite (contains_slash_query s), Hq, orb_false_r.
    destruct (Spec.contains "/"%char (Spec.strip_query s)); [by apply IH|].
    destruct (Ascii.eqb c "/"%char); [done|].
    cbn [Spec.strip_query]. by destruct (Ascii.eqb_spec c "?"%char).
Qed.

(** The specification's own example. *)
Lemma disposition_name_report :
  disposition_name_of "https://host/path/report.pdf?x=1" = "report.pdf" /\
  Spec.disposition_name "https://host/path/report.pdf?x=1" = "report.pdf".
Proof. split; reflexivity. Qed.

(** The segment is taken from the whole text of the URL: without a path
    the download is named after the host. *)
Lemma disposition_name_without_path :
  disposition_name_of "https://host" = "host" /\
  disposition_name_of "https://host/" = "download".
Proof. split; reflexivity. Qed.

(** C5, at the failing input: a "/" inside the query string makes the
    program name the download after a piece of the query, where the last
    path segment of the URL is "a.pdf". *)
Theorem disposition_name_query_with_slash :
  Spec.disposition_name "https://host/a.pdf?x=1/2" = "a.pdf" /\
  disposition_name_of "https://host/a.pdf?x=1/2" = "2" /\
  fst (stream_file_download Examples.pdf_upstream "https://host/a.pdf?x=1/2" []) =
  Ret {| body_iterator := iterator Examples.pdf_upstream "https://host/a.pdf?x=1/2";
         media_type := "application/pdf";
         headers := [("Content-Disposition",
                      ("attachment; filename=" +:+ dquote) +:+ "2" +:+ dquote)] |}.
Proof. repeat split; reflexivity. Qed.

End Disposition.

(** * The proxy on the concrete upstreams *)


Lemma invalid_input_and_upstream_error_witness :
  snd (invocation Examples.pdf_upstream "ftp://x/file.pdf" Drain) = [] /\
  fst (invocation Examples.missing_upstream "https://host/gone.pdf" Drain) =
    Failed (Exc (HTTPException 404 "Upstream status 404")) /\
  GetRequest "https://host/gone.pdf" ∉
    snd (invocation Examples.missing_upstream "https://host/gone.pdf" Drain).
Proof.
  split.
  - apply (proj1 (invalid_input_and_upstream_error Examples.pdf_upstream "ftp://x/file.pdf")).
    reflexivity.
  - destruct (proj2 (invalid_input_and_upstream_error Examples.missing_upstream
                       "https://host/gone.pdf") eq_refl
                {| head_status := 404; head_content_type := Some "text/html" |}
                eq_refl ltac:(simpl; lia)) as [_ Hall].
    destruct (Hall Drain) as (Hfail & _ & Hget). split; [exact Hfail | exact Hget].
Defined.



(** X3.  When the probe is cancelled, the [CancelledError] is no
    [Exception], the handler of [stream_file_download] does not run, and
    the session that was opened is not closed. *)
Lemma cancelled_probe_leaves_session_open (w : Upstream) (url : string) (c : consumer) :
  Spec.has_http_scheme url = true ->
  session_head w url = Raise (Base CancelledError) ->
  invocation w url c = (Failed (Base CancelledError), [SessionOpen; HeadRequest url]).
Proof.
  intros Hs Hh. unfold invocation. by rewrite stream_file_download_valid, Hh.
Qed.


Lemma cancelled_probe_leaves_session_open_witness :
  closes (snd (invocation Examples.cancelled_upstream "https://host/a.pdf" Drain)) = 0%nat.
Proof.
  by rewrite (cancelled_probe_leaves_session_open Examples.cancelled_upstream
                "https://host/a.pdf" Drain eq_refl eq_refl).
Defined.


Lemma disposition_name_agrees_witness :
  disposition_name_of "https://host/path/report.pdf?x=1" =
  Spec.disposition_name "https://host/path/report.pdf?x=1".
Proof. exact (disposition_name_agrees "https://host/path/report.pdf?x=1" eq_refl). Defined.

Lemma is_direct_file_url_clean_witness :
  _is_direct_file_url "https://example.edu/OS.PDF?x=1" ["pdf"; "zip"] =
  Spec.is_direct_file "https://example.edu/OS.PDF?x=1" ["pdf"; "zip"].
Proof.
  apply is_direct_file_url_clean.
  repeat constructor; reflexivity.
Defined.

(** * More on the download proxy *)

Section ResponseShape.

Lemma contains_last_segment (s : string) :
  Spec.contains "/"%char (Spec.last_segment s) = false.
Proof.
  induction s as [|c s IH]; [done|]. cbn [Spec.last_segment].
  destruct (Spec.contains "/"%char s) eqn:Hs; [done|].
  destruct (Ascii.eqb c "/"%char) eqn:Hc; [done|].
  cbn [Spec.contains]. by rewrite Hc, Hs.
Qed.

Lemma contains_strip_query (ch : ascii) (s : string) :
  Spec.contains ch s = false -> Spec.contains ch (Spec.strip_query s) = false.
Proof.
  induction s as [|c s IH]; [done|]. cbn [Spec.contains Spec.strip_query].
  intros [Hc Hs]%orb_false_iff.
  destruct (Ascii.eqb c "?"%char); [done|]. cbn [Spec.contains].
  by rewrite Hc, IH.
Qed.

Lemma strip_query_no_mark (s : string) :
  Spec.contains "?"%char (Spec.strip_query s) = false.
Proof.
  induction s as [|c s IH]; [done|]. cbn [Spec.strip_query].
  destruct (Ascii.eqb c "?"%char) eqn:Hc; [done|]. cbn [Spec.contains].
  by rewrite Hc, IH.
Qed.

(** X6.  The name put in the Content-Disposition header is never empty
    and contains neither "/" nor "?", whatever the URL. *)
Theorem disposition_name_is_a_file_name (url : string) :
  truthy (disposition_name_of url) = true /\
  Spec.contains "/"%char (disposition_name_of url) = false /\
  Spec.contains "?"%char (disposition_name_of url) = false.
Proof.
  rewrite disposition_name_of_unfold. unfold or_else.
  destruct (truthy (Spec.strip_query (Spec.last_segment url))) eqn:Ht; [|done].
  split; [done|]. split.
  - apply contains_strip_query, contains_last_segment.
  - apply strip_query_no_mark.
Qed.

Lemma first_split_no_separator (sep : ascii) (s : string) :
  Spec.contains sep (first (split sep s)) = false.
Proof.
  rewrite first_split. induction s as [|c s IH]; [done|].
  destruct (Ascii.eqb c sep) eqn:Hc; [done|]. cbn [Spec.contains].
  by rewrite Hc, IH.
Qed.

Lemma contains_lstrip (ch : ascii) (p : ascii -> bool) (s : string) :
  Spec.contains ch s = false -> Spec.contains ch (lstrip p s) = false.
Proof.
  induction s as [|c s IH]; [done|]. cbn [lstrip].
  destruct (p c); [|done]. cbn [Spec.contains].
  intros [_ Hs]%orb_false_iff. by apply IH.
Qed.

Lemma contains_rstrip (ch : ascii) (p : ascii -> bool) (s : string) :
  Spec.contains ch s = false -> Spec.contains ch (rstrip p s) = false.
Proof.
  induction s as [|c s IH]; [done|]. cbn [rstrip Spec.contains].
  intros [Hc Hs]%orb_false_iff. specialize (IH Hs).
  destruct (rstrip p s) as [|d r].
  - destruct (p c); [done|]. cbn [Spec.contains]. by rewrite Hc.
  - cbn [Spec.contains] in *. by rewrite Hc, IH.
Qed.

Lemma semicolon_lower_ascii (c : ascii) :
  Ascii.eqb (lower_ascii c) ";"%char = Ascii.eqb c ";"%char.
Proof. by destruct c as [[] [] [] [] [] [] [] []]. Qed.

Lemma contains_semicolon_lower (s : string) :
  Spec.contains ";"%char (lower s) = Spec.contains ";"%char s.
Proof.
  induction s as [|c s IH]; [done|]. cbn [lower Spec.contains].
  by rewrite semicolon_lower_ascii, IH.
Qed.

(** What [x.split(";")[0].strip().lower()] leaves. *)
Lemma bare_media_type_normal (x : string) :
  Props.bare_media_type (lower (strip (first (split ";"%char x)))).
Proof.
  split; [|apply lower_idemp].
  rewrite contains_semicolon_lower. unfold strip, strip_chars.
  apply contains_rstrip, contains_lstrip, first_split_no_separator.
Qed.

Lemma stream_file_download_returns (w : Upstream) (url : string)
    (response : StreamingResponse) (tr : list event) :
  stream_file_download w url [] = (Ret response, tr) ->
  exists h, Spec.has_http_scheme url = true /\
            session_head w url = Ret h /\ head_status h < 400 /\
            tr = [SessionOpen; HeadRequest url; HeadRelease] /\
            response =
              {| body_iterator := iterator w url;
                 media_type := or_else (content_type_of (head_content_type h))
                                       "application/octet-stream";
                 headers := [("Content-Disposition",
                              (("attachment; filename=" +:+ dquote)
                               +:+ disposition_name_of url) +:+ dquote)] |}.
Proof.
  destruct (Spec.has_http_scheme url) eqn:Hs.
  - rewrite stream_file_download_valid by done.
    destruct (session_head w url) as [h|e]; [|done].
    destruct (Z.geb_spec (head_status h) 400); [done|].
    intros [= <- <-]. exists h. split; [done|]. split; [done|]. split; [lia|]. done.
  - by rewrite stream_file_download_invalid.
Qed.

(** X7.  The media type of every response that [stream_file_download]
    returns is not empty, has no parameter part (no ";") and no capital
    letter. *)
Theorem media_type_is_bare (w : Upstream) (url : string)
    (response : StreamingResponse) (tr : list event) :
  stream_file_download w url [] = (Ret response, tr) ->
  truthy (media_type response) = true /\
  Props.bare_media_type (media_type response).
Proof.
  intros (h & _ & _ & _ & _ & ->)%stream_file_download_returns.
  cbn [media_type]. unfold or_else, content_type_of.
  destruct (truthy (lower _)) eqn:Ht; [|split; [done|]; split; reflexivity].
  split; [done|]. apply bare_media_type_normal.
Qed.

End ResponseShape.

Section Relay.

Lemma yields_app (tr1 tr2 : list event) :
  Props.yields (tr1 ++ tr2) = Props.yields tr1 ++ Props.yields tr2.
Proof.
  induction tr1 as [|ev tr1 IH]; [done|]. destruct ev; simpl; by rewrite ?IH.
Qed.

Lemma reads_made_app (tr1 tr2 : list event) :
  Props.reads_made (tr1 ++ tr2) = (Props.reads_made tr1 + Props.reads_made tr2)%nat.
Proof. apply count_occ_app. Qed.

(** The read loop against a consumer: what is handed over, and how many
    reads it takes. *)
Lemma read_loop_relays (reads : list (result raised string)) (c : consumer) :
  let tr := snd (drive (async_for_yield (read_loop reads)) c) in
  Props.yields tr =
    match c with
    | Drain => Props.served reads
    | AbandonAfter n => take (S n) (Props.served reads)
    | NeverIterated => []
    end /\
  (Props.reads_made tr <= length (Props.yields tr) + 1)%nat /\
  (fst (drive (async_for_yield (read_loop reads)) c) = Closed ->
   Props.reads_made tr = length (Props.yields tr)).
Proof.
  revert c. induction reads as [|[chunk|e] reads IH]; intros c; cbn [read_loop].
  - destruct c as [|n|]; cbn; repeat split; (lia || done).
  - destruct (truthy chunk) eqn:Hchunk; cbn [negb async_for_yield Props.served].
    + rewrite Hchunk. destruct c as [|[|n]|]; cbn [drive].
      * specialize (IH Drain). destruct (drive _ Drain) as [o tr].
        cbn [fst snd] in *. destruct IH as (Hy & Hr & Hc).
        change ([Read] ++ [Yield chunk] ++ tr) with ([Read; Yield chunk] ++ tr).
        rewrite yields_app, reads_made_app.
        cbn. rewrite Hy in *. split; [done|]. split; [lia|].
        intros Ho. by rewrite (Hc Ho).
      * cbn. repeat split; (lia || done).
      * specialize (IH (AbandonAfter n)). destruct (drive _ (AbandonAfter n)) as [o tr].
        cbn [fst snd] in *. destruct IH as (Hy & Hr & Hc).
        change ([Read] ++ [Yield chunk] ++ tr) with ([Read; Yield chunk] ++ tr).
        rewrite yields_app, reads_made_app.
        cbn. rewrite Hy in *. split; [done|]. split; [lia|].
        intros Ho. by rewrite (Hc Ho).
      * cbn. repeat split; (lia || done).
    + rewrite Hchunk. destruct c as [|n|]; cbn; repeat split; (lia || done).
  - destruct c as [|n|]; cbn; repeat split; (lia || done).
Qed.

Context (w : Upstream) (url : string).

Lemma never_iterated_run (h : HeadResponse) :
  Spec.has_http_scheme url = true ->
  session_head w url = Ret h -> head_status h < 400 ->
  invocation w url NeverIterated = (Closed, [SessionOpen; HeadRequest url; HeadRelease]).
Proof.
  intros Hs Hh Hst. rewrite (invocation_streaming w url NeverIterated h) by done.
  unfold iterator. by destruct (try_finally _ _).
Qed.

Lemma iterator_reading (c : consumer) (status : Z) :
  session_get w url = Ret status ->
  status < 400 ->
  c <> NeverIterated ->
  drive (iterator w url) c =
  (fst (drive (async_for_yield (read_loop (content_read w))) c),
   [GetRequest url] ++
   snd (drive (async_for_yield (read_loop (content_read w))) c) ++ [SessionClose]).
Proof.
  intros Hget Hst Hc. unfold iterator. rewrite drive_try_finally by done.
  unfold _stream_content. rewrite Hget.
  destruct (Z.geb_spec status 400); [lia|].
  rewrite async_for_yield_gen_pre, drive_gen_pre by done. cbn [fst snd].
  by rewrite <- app_assoc.
Qed.

Lemma invocation_reading (c : consumer) (h : HeadResponse) (status : Z) :
  Spec.has_http_scheme url = true ->
  session_head w url = Ret h -> head_status h < 400 ->
  session_get w url = Ret status -> status < 400 ->
  c <> NeverIterated ->
  invocation w url c =
  (fst (drive (async_for_yield (read_loop (content_read w))) c),
   [SessionOpen; HeadRequest url; HeadRelease; GetRequest url] ++
   snd (drive (async_for_yield (read_loop (content_read w))) c) ++ [SessionClose]).
Proof.
  intros Hs Hh Hhs Hget Hst Hc.
  rewrite (invocation_streaming w url c h) by done.
  by rewrite (iterator_reading c status).
Qed.


(** X9.  The body is pulled lazily: however it is consumed, the number of
    reads made on the upstream never exceeds the number of chunks handed
    over by more than one, and when the consumer abandons the stream no read
    was made beyond the chunks it received. *)
Theorem body_is_pulled_lazily (h : HeadResponse) (status : Z) (c : consumer) :
  Spec.has_http_scheme url = true ->
  session_head w url = Ret h -> head_status h < 400 ->
  session_get w url = Ret status -> status < 400 ->
  (Props.reads_made (snd (invocation w url c))
   <= length (Props.yields (snd (invocation w url c))) + 1)%nat /\
  (fst (invocation w url c) = Closed ->
   Props.reads_made (snd (invocation w url c))
   = length (Props.yields (snd (invocation w url c)))).
Proof.
  intros Hs Hh Hhs Hget Hst.
  assert (c = NeverIterated \/ c <> NeverIterated) as [->|Hc]
    by (destruct c; auto).
  - rewrite (never_iterated_run h) by done. cbn. split; [lia | done].
  - rewrite (invocation_reading c h status) by done. cbn [fst snd].
    rewrite !yields_app, !reads_made_app, !length_app.
    destruct (read_loop_relays (content_read w) c) as (_ & Hr & Hcl).
    cbn in *. split; [lia|]. intros Ho. specialize (Hcl Ho). lia.
Qed.


End Relay.

(** * The download route *)

(** X11.  The download route lets no [Exception] other than an
    [HTTPException] out: the one [stream_file_download] raised keeps its
    status and detail, and any other becomes status 500 with its message in
    the detail; when the probe raises such an error the session has been
    closed. *)
Theorem download_raises_http_exceptions (w : Upstream) (url : string) :
  (forall e tr, Routes.download w url [] = (Raise (Exc e), tr) ->
     exists status detail, e = HTTPException status detail) /\
  (forall status detail tr,
     stream_file_download w url [] = (Raise (Exc (HTTPException status detail)), tr) ->
     Routes.download w url [] = (Raise (Exc (HTTPException status detail)), tr)) /\
  (forall cls msg,
     Spec.has_http_scheme url = true ->
     session_head w url = Raise (Exc (Error cls msg)) ->
     Routes.download w url [] =
       (Raise (Exc (HTTPException 500 ("Download failed: " +:+ msg))),
        [SessionOpen; HeadRequest url; SessionClose])).
Proof.
  unfold Routes.download. split; [|split].
  - intros e tr.
    destruct (stream_file_download w url []) as [[response|[[status detail|cls msg]|b]] tr'];
      intros [= <- <-]; eauto.
  - intros status detail tr ->. done.
  - intros cls msg Hs Hh. by rewrite stream_file_download_valid, Hh.
Qed.

Lemma download_raises_http_exceptions_witness :
  Routes.download MoreExamples.unreachable_upstream "https://host/a.pdf" [] =
  (Raise (Exc (HTTPException 500 "Download failed: Cannot connect to host")),
   [SessionOpen; HeadRequest "https://host/a.pdf"; SessionClose]).
Proof.
  exact (proj2 (proj2 (download_raises_http_exceptions MoreExamples.unreachable_upstream
                         "https://host/a.pdf"))
           "ClientConnectorError" "Cannot connect to host" eq_refl eq_refl).
Defined.

Lemma media_type_is_bare_witness :
  Props.bare_media_type "text/html".
Proof.
  destruct (media_type_is_bare Examples.html_upstream "https://host/page"
              {| body_iterator := iterator Examples.html_upstream "https://host/page";
                 media_type := "text/html";
                 headers := [("Content-Disposition",
                              (("attachment; filename=" +:+ dquote) +:+ "page") +:+ dquote)] |}
              [SessionOpen; HeadRequest "https://host/page"; HeadRelease] eq_refl)
    as [_ Hbare].
  exact Hbare.
Defined.


Lemma body_is_pulled_lazily_witness :
  Props.reads_made (snd (invocation Examples.pdf_upstream "https://host/a.pdf" (AbandonAfter 0)))
  = 1%nat.
Proof.
  destruct (body_is_pulled_lazily Examples.pdf_upstream "https://host/a.pdf"
              {| head_status := 200; head_content_type := Some "application/pdf" |} 200
              (AbandonAfter 0)
              eq_refl eq_refl ltac:(simpl; lia) eq_refl ltac:(lia)) as [_ Hclosed].
  exact (Hclosed eq_refl).
Defined.


(** * More on the link classifier *)

Section ClassifierMore.

Lemma prefix_before_mark (p u q : string) :
  Spec.contains "?"%char p = false ->
  String.prefix p (u +:+ String "?"%char q) = String.prefix p u.
Proof.
  revert u. induction p as [|a p IH]; intros u Hp.
  - by destruct u.
  - cbn [Spec.contains] in Hp. apply orb_false_iff in Hp as [Ha Hp].
    destruct u as [|b u]; rewrite ?app_String, ?app_empty_l; cbn [String.prefix].
    + destruct (ascii_dec a "?"%char) as [->|Hne]; [done|done].
    + destruct (ascii_dec a b); [by apply IH | done].
Qed.

Lemma strip_query_before_mark (u q : string) :
  Spec.contains "?"%char u = false ->
  Spec.strip_query (u +:+ String "?"%char q) = u.
Proof.
  induction u as [|c u IH]; [done|]. cbn [Spec.contains].
  intros [Hc Hu]%orb_false_iff. rewrite app_String. cbn [Spec.strip_query].
  by rewrite Hc, IH.
Qed.

(** X12.  A query string never changes the verdict of the classifier: a
    URL without "?" is classified as the same URL followed by "?" and
    anything. *)
Theorem query_string_is_ignored (u q : string) (A : list string) :
  Spec.contains "?"%char u = false ->
  _is_direct_file_url (u +:+ String "?"%char q) A = _is_direct_file_url u A.
Proof.
  intros Hu. rewrite !is_direct_file_url_unfold.
  rewrite strip_query_before_mark by done.
  assert (Spec.strip_query u = u) as ->.
  { clear q. induction u as [|c u IH]; [done|]. cbn [Spec.contains] in Hu.
    apply orb_false_iff in Hu as [Hc Hu]. cbn [Spec.strip_query].
    by rewrite Hc, IH. }
  f_equal. unfold Spec.has_http_scheme, startswith.
  by rewrite !prefix_before_mark.
Qed.

Lemma any_ext_subset (lowered : string) (A B : list string) :
  (forall e, e ∈ A -> e ∈ B) ->
  any_ext lowered A = true -> any_ext lowered B = true.
Proof.
  intros HAB (e & He & Hend)%any_ext_iff. apply any_ext_iff. exists e. auto.
Qed.

(** X13.  Widening the allowlist never rejects a URL that was accepted,
    and the order and repetition of its entries do not matter. *)
Theorem classifier_is_monotone (url : string) (A B : list string) :
  (forall e, e ∈ A -> e ∈ B) ->
  _is_direct_file_url url A = true -> _is_direct_file_url url B = true.
Proof.
  intros HAB. rewrite !is_direct_file_url_unfold, !andb_true_iff.
  intros [Hs HA]. split; [done|]. by eapply any_ext_subset.
Qed.

End ClassifierMore.

Lemma query_string_is_ignored_witness :
  _is_direct_file_url "https://example.edu/os.pdf?session=42" ["pdf"]
  = _is_direct_file_url "https://example.edu/os.pdf" ["pdf"].
Proof. exact (query_string_is_ignored "https://example.edu/os.pdf" "session=42" ["pdf"] eq_refl). Defined.

Lemma classifier_is_monotone_witness :
  _is_direct_file_url "https://example.edu/os.pdf" ["zip"; "pdf"; "pdf"] = true.
Proof.
  apply (classifier_is_monotone "https://example.edu/os.pdf" ["pdf"]).
  - intros e ->%list_elem_of_singleton. right. left.
  - reflexivity.
Defined.

(** * More on the candidate pipeline *)

Section Provenance.

Context (w : World) (exts : list string).

(** X14.  What the prober returns, when it returns a content type, has no
    parameter part (no ";") and no capital letter. *)
Theorem probed_content_type_is_bare (url : string) (t t' : nat) (s : string) :
  _head_content_type w url t = (Ret (Some s), t') ->
  Props.bare_media_type s.
Proof.
  unfold _head_content_type, try_except, bind, call, ret, Exception.
  destruct (requests_head w t url) as [response|e]; [|done].
  destruct (header_content_type response) as [ctype|]; [|done].
  destruct (truthy ctype); [|done].
  intros [= <- _]. apply bare_media_type_normal.
Qed.

Lemma or_empty_bare (url : string) (t : nat) (o : option string) :
  _head_content_type w url t = (Ret o, S t) ->
  Props.bare_media_type (or_empty o).
Proof.
  unfold _head_content_type, try_except, bind, call, ret, Exception.
  destruct (requests_head w t url) as [response|e]; [|by intros [= <-]].
  destruct (header_content_type response) as [ctype|]; [|by intros [= <-]].
  destruct (truthy ctype); [|by intros [= <-]].
  intros [= <-]. cbn [or_empty]. unfold or_else.
  destruct (truthy _); [apply bare_media_type_normal | done].
Qed.

Lemma direct_links_sound (hits0 hits : list SearchHit) (cands : list Candidate) (t : nat) :
  (forall r, r ∈ hits -> r ∈ hits0) ->
  exists new t', direct_links w exts hits cands t = (Ret (cands ++ new), t') /\
                 Forall (Props.sound exts hits0) new /\
                 Forall (fun c => reason c = MatchedResult) new.
Proof.
  revert cands t. induction hits as [|r hits IH]; intros cands t Hsub; cbn [direct_links].
  - exists [], t. by rewrite app_nil_r.
  - destruct (_is_direct_file_url (href r) exts) eqn:Hd.
    + destruct (head_content_type_run w (href r) t) as (o & Ho & _).
      unfold bind at 1. rewrite Ho.
      destruct (IH (cands ++ [Props.direct_candidate r o]) (S t))
        as (new & t' & Hrun & Hsound & Hreason).
      { intros r' Hr'. apply Hsub. by right. }
      exists (Props.direct_candidate r o :: new), t'.
      unfold Props.direct_candidate in *. rewrite Hrun, <- app_assoc.
      split; [done|]. split; constructor; try done.
      split; [done|]. split.
      * left. exists r, o. split; [apply Hsub; left | done].
      * by eapply or_empty_bare.
    + apply IH. intros r' Hr'. apply Hsub. by right.
Qed.

Lemma page_links_loop_sound (hits0 : list SearchHit) (r : SearchHit)
    (links : list string) (cands : list Candidate) (t : nat) :
  r ∈ hits0 -> Spec.has_http_scheme (href r) = true ->
  exists new t', page_links_loop w exts r links cands t = (Ret (cands ++ new), t') /\
                 Forall (Props.sound exts hits0) new /\
                 Forall (fun c => reason c = FoundOnPage) new.
Proof.
  intros Hr Hs. revert cands t.
  induction links as [|link links IH]; intros cands t; cbn [page_links_loop].
  - exists [], t. by rewrite app_nil_r.
  - destruct (_is_direct_file_url link exts) eqn:Hd; [|apply IH].
    destruct (head_content_type_run w link t) as (o & Ho & _).
    unfold bind at 1. rewrite Ho.
    destruct (IH (cands ++ [Props.page_candidate r link o]) (S t))
      as (new & t' & Hrun & Hsound & Hreason).
    exists (Props.page_candidate r link o :: new), t'.
    unfold Props.page_candidate in *. rewrite Hrun, <- app_assoc.
    split; [done|]. split; constructor; try done.
    split; [done|]. split.
    * right. by exists r, link, o.
    * by eapply or_empty_bare.
Qed.

Lemma result_pages_sound (hits0 hits : list SearchHit) (cands : list Candidate) (t : nat) :
  (forall r, r ∈ hits -> r ∈ hits0) ->
  exists new t', result_pages w exts hits cands t = (Ret (cands ++ new), t') /\
                 Forall (Props.sound exts hits0) new /\
                 Forall (fun c => reason c = FoundOnPage) new.
Proof.
  revert cands t. induction hits as [|r hits IH]; intros cands t Hsub; cbn [result_pages].
  - exists [], t. by rewrite app_nil_r.
  - rewrite startswith_any_schemes.
    destruct (Spec.has_http_scheme (href r)) eqn:Hs.
    + rewrite (has_http_scheme_truthy _ Hs). cbn [negb orb].
      destruct (extract_links_total w (href r) t) as (links & Hx).
      unfold bind at 1. unfold try_except at 1. rewrite Hx.
      destruct (page_links_loop_sound hits0 r links cands (S t))
        as (new1 & t1 & Hrun1 & Hsound1 & Hreason1); [apply Hsub; left | done |].
      unfold bind at 1. rewrite Hrun1.
      destruct (IH (cands ++ new1) t1) as (new2 & t' & Hrun2 & Hsound2 & Hreason2).
      { intros r' Hr'. apply Hsub. by right. }
      exists (new1 ++ new2), t'. rewrite Hrun2, <- app_assoc.
      split; [done|]. split; by apply Forall_app.
    + rewrite orb_true_r. apply IH. intros r' Hr'. apply Hsub. by right.
Qed.

Lemma pipeline_sound (hits : list SearchHit) (t1 : nat) :
  exists A B t2 t',
    direct_links w exts hits [] t1 = (Ret A, t2) /\
    result_pages w exts hits A t2 = (Ret (A ++ B), t') /\
    Forall (Props.sound exts hits) (A ++ B) /\
    Forall (fun c => reason c = MatchedResult) A /\
    Forall (fun c => reason c = FoundOnPage) B.
Proof.
  destruct (direct_links_sound hits hits [] t1) as (A & t2 & HA & HsA & HrA); [done|].
  destruct (result_pages_sound hits hits A t2) as (B & t' & HB & HsB & HrB); [done|].
  exists A, B, t2, t'. split; [done|]. split; [done|]. split; [by apply Forall_app|]. done.
Qed.

End Provenance.

Section PipelineMore.

Implicit Types (l A B : list Candidate).

Lemma filter_all {X} (P : X -> Prop) `{!forall x, Decision (P x)} (l : list X) :
  (forall x, P x) -> filter P l = l.
Proof.
  intros HP. induction l as [|x l IH]; [done|].
  by rewrite filter_cons_True, IH.
Qed.

Lemma first_occurrences_app A B :
  Spec.first_occurrences (A ++ B) =
  Spec.first_occurrences A ++
  filter (fun c => direct_url c ∉ direct_url <$> A) (Spec.first_occurrences B).
Proof.
  induction A as [|a A IH]; cbn [app Spec.first_occurrences].
  - rewrite filter_all; [done|]. intros x. rewrite fmap_nil. apply not_elem_of_nil.
  - f_equal. rewrite IH, filter_app. f_equal.
    rewrite list_filter_filter. apply list_filter_iff.
    intros x. rewrite fmap_cons, not_elem_of_cons. tauto.
Qed.

Lemma sound_truthy (exts : list string) (hits : list SearchHit) l :
  Forall (Props.sound exts hits) l ->
  Forall (fun c => truthy (direct_url c) = true) l.
Proof.
  intros Hl. eapply Forall_impl; [exact Hl|].
  intros c (Hd & _). rewrite is_direct_file_url_unfold in Hd.
  apply andb_true_iff in Hd as [Hs _]. by apply has_http_scheme_truthy.
Qed.

Context (w : World) (query : string)
  (extra_terms preferred_extensions : option (list string)) (max_results : Z).

Local Abbreviation exts := (default default_extensions preferred_extensions).
Local Abbreviation enriched := (enriched_query query (default [] extra_terms)).

(** The output of a run, in terms of what the two phases appended. *)
Lemma pipeline_output (t : nat) (out : list Candidate) (t' : nat) :
  perform_search_and_extract w query extra_terms preferred_extensions max_results t
  = (Ret out, t') ->
  exists hits t1 A B,
    _search_web w enriched max_results t = (Ret hits, t1) /\
    Forall (Props.sound exts hits) (A ++ B) /\
    Forall (fun c => reason c = MatchedResult) A /\
    Forall (fun c => reason c = FoundOnPage) B /\
    out = Spec.first_occurrences (A ++ B).
Proof.
  rewrite perform_search_and_extract_unfold. cbv zeta.
  destruct (_search_web w enriched max_results t) as [[hits|e] t1]; [|done].
  destruct (pipeline_sound w exts hits t1) as (A & B & t2 & t'' & HA & HB & Hs & HrA & HrB).
  rewrite HA, HB. intros [= <- <-].
  exists hits, t1, A, B. repeat (split; [done|]).
  apply deduplicate_initial. by eapply sound_truthy.
Qed.


(** X16.  In the returned list the direct hits come first: it is a list of
    candidates with reason "Matched by extension", each its own source page,
    followed by a list of candidates with reason "Found on page". *)
Theorem direct_hits_come_first (t : nat) (out : list Candidate) (t' : nat) :
  perform_search_and_extract w query extra_terms preferred_extensions max_results t
  = (Ret out, t') ->
  exists direct found,
    out = direct ++ found /\
    Forall (fun c => reason c = MatchedResult /\ source_page c = direct_url c) direct /\
    Forall (fun c => reason c = FoundOnPage) found.
Proof.
  intros (hits & t1 & A & B & Hsearch & Hsound & HrA & HrB & ->)%pipeline_output.
  rewrite first_occurrences_app. eexists _, _. split; [done|]. split.
  - apply Forall_forall. intros c Hc.
    assert (c ∈ A) as HcA.
    { eapply elem_of_sublist; [exact Hc | apply first_occurrences_sublist]. }
    split; [by eapply Forall_forall in HrA|].
    assert (Props.sound exts hits c) as (_ & Htr & _).
    { apply (proj1 (Forall_forall _ _) Hsound). apply elem_of_app. by left. }
    assert (reason c = MatchedResult) as Hr by (by eapply Forall_forall in HrA).
    destruct Htr as [(r & o & _ & ->)|(r & link & o & _ & _ & ->)]; [done|done].
  - apply Forall_forall. intros c [_ Hc]%list_elem_of_filter.
    apply (proj1 (Forall_forall _ _) HrB).
    eapply elem_of_sublist; [exact Hc | apply first_occurrences_sublist].
Qed.

End PipelineMore.

(** X17.  With an empty allowlist the pipeline still searches and fetches
    the result pages, and returns no candidate. *)
Theorem empty_allowlist_gives_nothing (w : World) (query : string)
    (extra_terms : option (list string)) (max_results : Z)
    (t : nat) (hits : list SearchHit) (t1 : nat) :
  _search_web w (enriched_query query (default [] extra_terms)) max_results t
  = (Ret hits, t1) ->
  exists t', perform_search_and_extract w query extra_terms (Some []) max_results t
             = (Ret [], t').
Proof.
  intros Hsearch. rewrite perform_search_and_extract_unfold. cbv zeta.
  rewrite Hsearch. change (default default_extensions (Some [])) with (@nil string).
  destruct (pipeline_sound w [] hits t1) as (A & B & t2 & t' & HA & HB & Hs & _ & _).
  rewrite HA, HB. exists t'. destruct (A ++ B) as [|c l]; [done|].
  apply Forall_cons in Hs as [(Hd & _) _].
  rewrite is_direct_file_url_unfold, andb_false_r in Hd. done.
Qed.

Lemma probed_content_type_is_bare_witness :
  Props.bare_media_type "application/pdf".
Proof.
  exact (probed_content_type_is_bare MoreExamples.typed_site
           "https://example.edu/os.pdf" 0%nat 1%nat "application/pdf" eq_refl).
Defined.


Lemma direct_hits_come_first_witness :
  exists direct found,
    Examples.course_output = direct ++ found /\
    Forall (fun c => reason c = MatchedResult /\ source_page c = direct_url c) direct /\
    Forall (fun c => reason c = FoundOnPage) found.
Proof.
  exact (direct_hits_come_first Examples.course_site "operating systems textbook"
           (Some ["download"; "direct link"]) (Some ["pdf"]) 10 0%nat
           Examples.course_output 7%nat eq_refl).
Defined.

Lemma empty_allowlist_gives_nothing_witness :
  exists t', perform_search_and_extract Examples.course_site "operating systems textbook"
               None (Some []) 10 0%nat = (Ret [], t').
Proof.
  exact (empty_allowlist_gives_nothing Examples.course_site "operating systems textbook"
           None 10 0%nat (map hit_of_result Examples.course_hits) 1%nat eq_refl).
Defined.

(** * The language-model helpers *)

Section Helpers.

Context (svc : LLM.Service) (query : string).

Lemma member_elem_of (e : string) (l : list string) :
  LLM.member e l = true -> e ∈ l.
Proof.
  unfold LLM.member. intros H%bool_decide_eq_true. by apply elem_of_list_to_set in H.
Qed.

Lemma or_list_keywords (ks : list string) :
  (1 <= length (LLM.or_list (take 4 ks) ["download"; "file"; "direct link"]) <= 4)%nat.
Proof.
  destruct (take 4 ks) as [|k l] eqn:Hk; cbn; [lia|].
  assert (length (take 4 ks) <= 4)%nat as Hlen by (rewrite length_take; lia).
  rewrite Hk in Hlen. cbn in Hlen. lia.
Qed.

Lemma or_list_extensions (es allowed : list string) :
  let exts := LLM.or_list (List.filter (fun e => LLM.member e allowed) es) allowed in
  (forall e, e ∈ exts -> e ∈ allowed) /\ (allowed <> [] -> exts <> []).
Proof.
  cbv zeta. destruct (List.filter _ es) as [|x l] eqn:Hf; cbn [LLM.or_list].
  - done.
  - split; [|done]. intros e He. rewrite <- Hf in He.
    apply list_elem_of_In, filter_In in He as [_ He]. by apply member_elem_of.
Qed.

(** X18.  Whatever the model answers, and when there is no model, the
    enrichment has between one and four keywords, and its extensions are
    all taken from the allowlist it was given, at least one of them when
    that allowlist is not empty. *)
Theorem enrichment_stays_within_allowlist (allowed : list string) :
  (1 <= length (LLM.keywords (LLM.enrich_query_with_llm svc query allowed)) <= 4)%nat /\
  (forall e, e ∈ LLM.extensions (LLM.enrich_query_with_llm svc query allowed) -> e ∈ allowed) /\
  (allowed <> [] -> LLM.extensions (LLM.enrich_query_with_llm svc query allowed) <> []).
Proof.
  unfold LLM.enrich_query_with_llm.
  assert (let fallback := {| LLM.keywords := ["download"; "direct link"];
                             LLM.extensions := allowed |} in
          (1 <= length (LLM.keywords fallback) <= 4)%nat /\
          (forall e, e ∈ LLM.extensions fallback -> e ∈ allowed) /\
          (allowed <> [] -> LLM.extensions fallback <> [])) as Hfallback.
  { cbn. split; [lia | done]. }
  destruct (LLM._get_client svc); cbn [negb]; [|exact Hfallback].
  unfold LLM.and_then.
  destruct (LLM.create svc _ _ _ _) as [completion|?]; [|exact Hfallback].
  destruct (LLM.json_loads svc _) as [data|?]; [|exact Hfallback].
  destruct (LLM.get data "keywords" _) as [ks|?]; [|exact Hfallback].
  destruct (LLM.iterate ks) as [ks'|?]; [|exact Hfallback].
  destruct (LLM.get data "extensions" _) as [es|?]; [|exact Hfallback].
  destruct (LLM.iterate es) as [es'|?]; [|exact Hfallback].
  cbn [LLM.keywords LLM.extensions].
  split; [apply or_list_keywords | apply or_list_extensions].
Qed.

(** X19.  The ranking returns at most fifty items and never turns a
    non-empty list of candidates into an empty one; without a client it
    returns the first twenty candidates as they are, in their order. *)
Theorem ranking_is_bounded (candidates : list Candidate) (ranked : list LLM.json) :
  LLM.score_candidates_with_llm svc query candidates = Ret ranked ->
  (length ranked <= 50)%nat /\
  (candidates <> [] -> ranked <> []) /\
  (LLM._get_client svc = false ->
   ranked = map LLM.candidate_json (take 20 candidates)).
Proof.
  unfold LLM.score_candidates_with_llm.
  assert (let kept := map LLM.candidate_json (take 20 candidates) in
          (length kept <= 50)%nat /\ (candidates <> [] -> kept <> [])) as Hkept.
  { cbv zeta. rewrite length_map, length_take. split; [lia|].
    by destruct candidates. }
  destruct (LLM._get_client svc); cbn [negb].
  - unfold LLM.and_then.
    destruct (LLM.json_dumps svc _) as [dumped|?]; [|done].
    destruct (LLM.create svc _ _ _ _) as [completion|?].
    + destruct (LLM.json_loads svc _) as [[| | | |[|item items]|]|?];
        intros [= <-]; try (split; [apply Hkept|]; split; [apply Hkept | done]).
      split; [|done]. cbn [length]. rewrite length_take. lia.
    + intros [= <-]. split; [apply Hkept|]. split; [apply Hkept | done].
  - intros [= <-]. split; [apply Hkept|]. split; [apply Hkept | done].
Qed.

End Helpers.

(** * The search route *)

Section SearchRoute.

Context (env : Pages.Environment) (svc : LLM.Service) (w : World).

Lemma lstrip_all (p : ascii -> bool) (s : string) :
  Props.all_chars p s = true -> lstrip p s = "".
Proof.
  induction s as [|c s IH]; [done|]. cbn [Props.all_chars lstrip].
  intros [Hc Hs]%andb_true_iff. rewrite Hc. by apply IH.
Qed.

(** X20.  A query made of white space only is answered with a redirect
    to the index page, and nothing is searched. *)
Theorem blank_query_is_redirected (q : string) (t : nat) :
  Props.all_chars is_space q = true ->
  Pages.search env svc w q t = (Ret (Pages.RedirectResponse "/"), t).
Proof.
  intros Hq. unfold Pages.search, strip, strip_chars.
  by rewrite (lstrip_all _ _ Hq).
Qed.

Lemma add_download_href_candidate (c : Candidate) :
  truthy (direct_url c) = true ->
  Pages.add_download_href env (LLM.candidate_json c) = Ret (Props.shown env c).
Proof.
  intros Hc. unfold Pages.add_download_href, LLM.candidate_json. cbn.
  by rewrite Hc.
Qed.

Lemma for_each_candidates (cands : list Candidate) :
  Forall (fun c => truthy (direct_url c) = true) cands ->
  Pages.for_each env (map LLM.candidate_json cands) = Ret (map (Props.shown env) cands).
Proof.
  induction 1 as [|c cands Hc _ IH]; [done|]. cbn [map Pages.for_each].
  rewrite add_download_href_candidate by done. cbn [LLM.and_then].
  by rewrite IH.
Qed.

Lemma for_each_length (ranked results : list LLM.json) :
  Pages.for_each env ranked = Ret results -> length results = length ranked.
Proof.
  revert results. induction ranked as [|item ranked IH]; intros results; cbn [Pages.for_each].
  - by intros [= <-].
  - destruct (Pages.add_download_href env item) as [item'|?]; [|done].
    cbn [LLM.and_then]. destruct (Pages.for_each env ranked) as [rest|?]; [|done].
    cbn [LLM.and_then]. intros [= <-]. cbn. by rewrite (IH rest).
Qed.

Lemma score_candidates_length (query : string) (candidates : list Candidate)
    (ranked : list LLM.json) :
  LLM.score_candidates_with_llm svc query candidates = Ret ranked ->
  (length ranked <= 50)%nat.
Proof.
  unfold LLM.score_candidates_with_llm, LLM.and_then.
  assert (length (map LLM.candidate_json (take 20 candidates)) <= 50)%nat as Hkept.
  { rewrite length_map, length_take. lia. }
  destruct (LLM._get_client svc); cbn [negb]; [|by intros [= <-]].
  destruct (LLM.json_dumps svc _) as [dumped|?]; [|done].
  destruct (LLM.create svc _ _ _ _) as [completion|?]; [|by intros [= <-]].
  destruct (LLM.json_loads svc _) as [[| | | |[|item items]|]|?];
    intros [= <-]; try done.
  cbn [length]. rewrite length_take. lia.
Qed.

(** X21.  The results page never lists more than fifty items. *)
Theorem results_page_is_bounded (q : string) (t t' : nat)
    (query : string) (results : list LLM.json) (message : option Pages.Message) :
  Pages.search env svc w q t = (Ret (Pages.TemplateResponse query results message), t') ->
  (length results <= 50)%nat.
Proof.
  unfold Pages.search. destruct (truthy (strip q)); cbn [negb]; [|done].
  unfold bind at 1. unfold lift at 1.
  destruct (Pages.int env _) as [n|?]; [|done].
  unfold bind at 1.
  destruct (perform_search_and_extract _ _ _ _ _ _) as [[[|c cands]|?] t1]; [| |done].
  - intros [= _ <- _ _]. cbn. lia.
  - unfold bind, lift, ret.
    destruct (LLM.score_candidates_with_llm _ _ _) as [ranked|?] eqn:Hscore; [|done].
    destruct (Pages.for_each env ranked) as [results'|?] eqn:Heach; [|done].
    intros [= _ <- _ _]. rewrite (for_each_length _ _ Heach).
    by eapply score_candidates_length.
Qed.

(** X22.  Without a language model the results page shows the first
    twenty candidates of the pipeline, run on the stripped query with the
    keywords "download" and "direct link" and the allowlist of the
    environment, in the order of the pipeline; each has a link to the
    download route for its URL, and each URL is one the classifier accepts
    under the allowlist of the environment. *)
Theorem results_without_model (q : string) (n : Z) (t t' : nat) (cands : list Candidate) :
  LLM._get_client svc = false ->
  truthy (strip q) = true ->
  Pages.int env (default "10" (Pages.MAX_RESULTS env)) = Ret n ->
  perform_search_and_extract w (strip q) (Some ["download"; "direct link"])
    (Some (Main.get_allowed_extensions (Pages.ALLOWED_FILE_EXTENSIONS env))) n t
  = (Ret cands, t') ->
  cands <> [] ->
  Pages.search env svc w q t =
    (Ret (Pages.TemplateResponse (strip q) (map (Props.shown env) (take 20 cands)) None), t') /\
  forall c, c ∈ take 20 cands ->
    _is_direct_file_url (direct_url c)
      (Main.get_allowed_extensions (Pages.ALLOWED_FILE_EXTENSIONS env)) = true.
Proof.
  intros Hclient Hq Hint Hrun Hne.
  destruct (pipeline_output _ _ _ _ _ _ _ _ Hrun)
    as (hits & t1 & A & B & _ & Hsound & _ & _ & Hout).
  assert (Forall (Props.sound
            (Main.get_allowed_extensions (Pages.ALLOWED_FILE_EXTENSIONS env)) hits) cands)
    as Hcands.
  { rewrite Hout. apply Forall_forall. intros c Hc.
    apply (proj1 (Forall_forall _ _) Hsound).
    eapply elem_of_sublist; [exact Hc | apply first_occurrences_sublist]. }
  assert (Forall (Props.sound
            (Main.get_allowed_extensions (Pages.ALLOWED_FILE_EXTENSIONS env)) hits)
            (take 20 cands)) as Htake.
  { apply Forall_forall. intros c Hc. apply (proj1 (Forall_forall _ _) Hcands).
    eapply elem_of_sublist; [exact Hc | apply sublist_take]. }
  split.
  - unfold Pages.search. rewrite Hq. cbn [negb].
    unfold LLM.enrich_query_with_llm. rewrite Hclient. cbn [negb LLM.keywords LLM.extensions].
    unfold bind at 1. unfold lift at 1. rewrite Hint.
    unfold bind at 1. rewrite Hrun.
    destruct cands as [|c cands]; [done|].
    unfold bind, lift, ret. unfold LLM.score_candidates_with_llm.
    rewrite Hclient. cbn [negb].
    rewrite for_each_candidates; [done|]. by eapply sound_truthy.
  - intros c Hc. by apply (proj1 (Forall_forall _ _) Htake) in Hc as (Hd & _).
Qed.

End SearchRoute.

(** * The results page, continued *)

Section ResultsPage.

Context (env : Pages.Environment) (svc : LLM.Service) (w : World).

Lemma assoc_set_item (key : string) (v : LLM.json) (fields : list (string * LLM.json)) :
  LLM.assoc key (Pages.set_item key v fields) = Some v.
Proof.
  induction fields as [|[k old] fields IH]; cbn [Pages.set_item LLM.assoc].
  - by rewrite String.eqb_refl.
  - destruct (String.eqb k key) eqn:Hk; cbn [LLM.assoc]; by rewrite Hk.
Qed.

Lemma add_download_href_linked (item item' : LLM.json) :
  Pages.add_download_href env item = Ret item' -> Props.linked env item'.
Proof.
  unfold Pages.add_download_href, LLM.and_then.
  destruct item as [| | | | |fields]; try done. cbn [LLM.get].
  destruct (Pages.truthy_json _) eqn:Ht.
  - destruct (default _ _) as [| | |s| |]; try done.
    intros [= <-]. eexists _, _. split; [done|]. split; [apply assoc_set_item|].
    right. by exists s.
  - intros [= <-]. eexists _, _. split; [done|]. split; [apply assoc_set_item|].
    by left.
Qed.

Lemma for_each_linked (ranked results : list LLM.json) :
  Pages.for_each env ranked = Ret results -> Forall (Props.linked env) results.
Proof.
  revert results. induction ranked as [|item ranked IH]; intros results; cbn [Pages.for_each].
  - by intros [= <-].
  - destruct (Pages.add_download_href env item) as [item'|?] eqn:Hitem; [|done].
    cbn [LLM.and_then]. destruct (Pages.for_each env ranked) as [rest|?]; [|done].
    cbn [LLM.and_then]. intros [= <-]. constructor; [|by apply IH].
    by eapply add_download_href_linked.
Qed.

(** X23.  Every item of a results page is an object with a
    "download_href" entry, which is "#" or the address of the download
    route with a quoted URL; a ranking that holds anything else makes the
    route fail instead. *)
Theorem results_carry_download_links (q : string) (t t' : nat)
    (query : string) (results : list LLM.json) (message : option Pages.Message) :
  Pages.search env svc w q t = (Ret (Pages.TemplateResponse query results message), t') ->
  forall item, item ∈ results -> Props.linked env item.
Proof.
  unfold Pages.search. destruct (truthy (strip q)); cbn [negb]; [|done].
  unfold bind at 1. unfold lift at 1.
  destruct (Pages.int env _) as [n|?]; [|done].
  unfold bind at 1.
  destruct (perform_search_and_extract _ _ _ _ _ _) as [[[|c cands]|?] t1]; [| |done].
  - intros [= _ <- _ _] item ?%elem_of_nil. done.
  - unfold bind, lift, ret.
    destruct (LLM.score_candidates_with_llm _ _ _) as [ranked|?]; [|done].
    destruct (Pages.for_each env ranked) as [results'|?] eqn:Heach; [|done].
    intros [= _ <- _ _] item Hitem.
    by apply (proj1 (Forall_forall _ _) (for_each_linked _ _ Heach)).
Qed.

End ResultsPage.

Lemma ranking_is_bounded_witness :
  (length (map LLM.candidate_json (take 20 Examples.course_output)) <= 50)%nat /\
  (Examples.course_output <> [] ->
   map LLM.candidate_json (take 20 Examples.course_output) <> []) /\
  (LLM._get_client MoreExamples.no_model = false ->
   map LLM.candidate_json (take 20 Examples.course_output) =
   map LLM.candidate_json (take 20 Examples.course_output)).
Proof.
  exact (ranking_is_bounded MoreExamples.no_model "operating systems textbook"
           Examples.course_output _ eq_refl).
Defined.

Lemma blank_query_is_redirected_witness :
  Pages.search MoreExamples.plain_env MoreExamples.no_model Examples.course_site "   " 0%nat
  = (Ret (Pages.RedirectResponse "/"), 0%nat).
Proof.
  exact (blank_query_is_redirected MoreExamples.plain_env MoreExamples.no_model
           Examples.course_site "   " 0%nat eq_refl).
Defined.

Lemma results_page_is_bounded_witness :
  (length (map (Props.shown MoreExamples.plain_env) Examples.course_output) <= 50)%nat.
Proof.
  exact (results_page_is_bounded MoreExamples.plain_env MoreExamples.no_model
           Examples.course_site " operating systems textbook " 0%nat 7%nat
           "operating systems textbook" _ None eq_refl).
Defined.

Lemma results_carry_download_links_witness :
  Props.linked MoreExamples.plain_env
    (default LLM.JNull
       (head (map (Props.shown MoreExamples.plain_env) Examples.course_output))).
Proof.
  apply (results_carry_download_links MoreExamples.plain_env MoreExamples.no_model
           Examples.course_site " operating systems textbook " 0%nat 7%nat
           "operating systems textbook" _ None eq_refl).
  vm_compute. constructor.
Defined.

Lemma results_without_model_witness :
  Pages.search MoreExamples.plain_env MoreExamples.no_model Examples.course_site
    " operating systems textbook " 0%nat =
    (Ret (Pages.TemplateResponse "operating systems textbook"
            (map (Props.shown MoreExamples.plain_env) Examples.course_output) None), 7%nat) /\
  forall c, c ∈ Examples.course_output ->
    _is_direct_file_url (direct_url c) default_extensions = true.
Proof.
  exact (results_without_model MoreExamples.plain_env MoreExamples.no_model
           Examples.course_site " operating systems textbook " 10 0%nat 7%nat
           Examples.course_output eq_refl eq_refl eq_refl eq_refl ltac:(discriminate)).
Defined.

(** * The trends service *)

Section Tally.

Context {K : Type} `{EqDecision K}.

Implicit Types (d samples : list (K * Z)) (k : K) (v : Z).

Lemma value_of_add_to k' k v d :
  Props.value_of k' (Trends.add_to k v d) =
  Props.value_of k' d + (if decide (k = k') then v else 0).
Proof.
  induction d as [|[k0 v0] d IH]; cbn [Trends.add_to Props.value_of].
  - destruct (decide (k = k')); lia.
  - destruct (decide (k0 = k)) as [->|Hk]; cbn [Props.value_of].
    + destruct (decide (k = k')); lia.
    + destruct (decide (k0 = k')) as [->|Hk'].
      * destruct (decide (k = k')); [congruence | lia].
      * apply IH.
Qed.

Lemma add_to_keys k' k v d :
  k' ∈ (Trends.add_to k v d).*1 <-> k' = k \/ k' ∈ d.*1.
Proof.
  induction d as [|[k0 v0] d IH]; cbn [Trends.add_to].
  - rewrite fmap_cons. cbn [fst]. rewrite list_elem_of_singleton, fmap_nil.
    split; [by left | intros [?|?%elem_of_nil]; done].
  - destruct (decide (k0 = k)) as [->|Hk]; rewrite !fmap_cons; cbn [fst];
      rewrite !elem_of_cons; [tauto|]. rewrite IH. tauto.
Qed.

Lemma add_to_NoDup k v d : NoDup d.*1 -> NoDup (Trends.add_to k v d).*1.
Proof.
  induction d as [|[k0 v0] d IH]; cbn [Trends.add_to].
  - intros _. rewrite fmap_cons, fmap_nil. apply NoDup_singleton.
  - rewrite fmap_cons. cbn [fst]. intros [Hk0 Hd]%NoDup_cons.
    destruct (decide (k0 = k)) as [->|Hk]; rewrite fmap_cons; cbn [fst].
    + by apply NoDup_cons.
    + apply NoDup_cons. split; [|by apply IH].
      rewrite add_to_keys. intros [?|?]; done.
Qed.

Lemma tally_value k samples d :
  Props.value_of k (Props.tally samples d) = Props.value_of k d + Props.total k samples.
Proof.
  revert d. induction samples as [|[k0 v0] samples IH]; intros d;
    cbn [Props.tally fold_left Props.total fst snd].
  - lia.
  - change (fold_left _ samples ?d') with (Props.tally samples d').
    rewrite IH, value_of_add_to. lia.
Qed.

Lemma tally_keys k samples d :
  k ∈ (Props.tally samples d).*1 <-> k ∈ d.*1 \/ k ∈ samples.*1.
Proof.
  revert d. induction samples as [|[k0 v0] samples IH]; intros d;
    cbn [Props.tally fold_left fst snd].
  - rewrite fmap_nil, elem_of_nil. tauto.
  - change (fold_left _ samples ?d') with (Props.tally samples d').
    rewrite IH, add_to_keys, fmap_cons, elem_of_cons. cbn [fst]. tauto.
Qed.

Lemma tally_NoDup samples d : NoDup d.*1 -> NoDup (Props.tally samples d).*1.
Proof.
  revert d. induction samples as [|[k0 v0] samples IH]; intros d Hd;
    cbn [Props.tally fold_left fst snd]; [done|].
  apply IH. by apply add_to_NoDup.
Qed.

Lemma value_of_elem k v d :
  NoDup d.*1 -> (k, v) ∈ d -> Props.value_of k d = v.
Proof.
  induction d as [|[k0 v0] d IH]; [by intros _ ?%elem_of_nil|].
  rewrite fmap_cons. cbn [fst Props.value_of].
  intros [Hk0 Hd]%NoDup_cons [[= -> ->]|Hin]%elem_of_cons.
  - by rewrite decide_True.
  - destruct (decide (k0 = k)) as [->|Hk]; [|by apply IH].
    exfalso. apply Hk0. apply list_elem_of_fmap. by exists (k, v).
Qed.

Lemma max_from_greatest best best_value d :
  exists value,
    (Trends.max_from best best_value d, value) ∈ (best, best_value) :: d /\
    forall k v, (k, v) ∈ (best, best_value) :: d -> v <= value.
Proof.
  revert best best_value. induction d as [|[k0 v0] d IH]; intros best best_value;
    cbn [Trends.max_from].
  - exists best_value. split; [by left|].
    intros k v [[= -> ->]|?%elem_of_nil]%elem_of_cons; [lia | done].
  - destruct (Z.ltb_spec best_value v0) as [Hlt|Hge].
    + destruct (IH k0 v0) as (value & Hin & Hmax). exists value. split.
      * by right.
      * intros k v [[= -> ->]|Hkv]%elem_of_cons; [|by eapply Hmax].
        specialize (Hmax k0 v0 ltac:(by left)). lia.
    + destruct (IH best best_value) as (value & Hin & Hmax). exists value. split.
      * apply elem_of_cons in Hin as [Hin|Hin]; [rewrite Hin; by left|].
        right. by right.
      * intros k v [[= -> ->]|[[= -> ->]|Hkv]%elem_of_cons]%elem_of_cons.
        -- apply (Hmax best best_value). by left.
        -- specialize (Hmax best best_value ltac:(by left)). lia.
        -- apply (Hmax k v). by right.
Qed.

Lemma max_key_greatest d :
  d <> [] -> NoDup d.*1 ->
  exists top,
    Trends.max_key d = Ret top /\ top ∈ d.*1 /\
    forall k, k ∈ d.*1 -> Props.value_of k d <= Props.value_of top d.
Proof.
  destruct d as [|[k0 v0] d]; [done|]. intros _ Hd. cbn [Trends.max_key].
  destruct (max_from_greatest k0 v0 d) as (value & Hin & Hmax).
  eexists. split; [done|]. split.
  - apply list_elem_of_fmap. by eexists (_, _).
  - intros k [[k' v] [Hk Hkv]]%list_elem_of_fmap. cbn in Hk. subst k'.
    rewrite (value_of_elem _ _ _ Hd Hkv), (value_of_elem _ _ _ Hd Hin).
    by eapply Hmax.
Qed.

End Tally.

Section TrendsService.

Context (svc : Trends.Service).

Lemma aggregate_tally (rows : list Trends.Row) (dts : list Trends.datetime)
    (by_hour : list (Z * Z)) (by_day : list (string * Z)) :
  Forall2 (fun row dt => Trends.fromisoformat svc (Trends.index_isoformat row) = Ret dt)
    rows dts ->
  Trends.aggregate svc (map Trends.point_of rows) by_hour by_day =
  Ret (Props.tally (zip (Trends.hour <$> dts) (Trends.row_value <$> rows)) by_hour,
       Props.tally (zip (Trends.day_name <$> dts) (Trends.row_value <$> rows)) by_day).
Proof.
  intros Hdts. revert by_hour by_day.
  induction Hdts as [|row dt rows dts Hdt _ IH]; intros by_hour by_day; [done|].
  cbn [map Trends.aggregate Trends.point_of Trends.point_datetime Trends.point_value].
  rewrite Hdt. cbn [Trends.and_then]. by rewrite IH.
Qed.

Lemma zip_keys {A} (ks : list A) (vs : list Z) :
  length ks = length vs -> (zip ks vs).*1 = ks.
Proof. intros Hlen. by apply fst_zip; rewrite Hlen. Qed.

(** X24.  When the data frame has rows and every date parses,
    [get_trends] answers with one point per row, in order, and with a top
    hour and a top day that occur among the samples and whose summed value
    is at least that of every other hour, respectively day, of the
    samples. *)
Theorem top_hour_and_day_are_maximal (keyword timeframe : string) (geo : option string)
    (rows : list Trends.Row) (dts : list Trends.datetime) :
  Trends.interest_over_time svc keyword timeframe geo = Ret rows ->
  rows <> [] ->
  Forall2 (fun row dt => Trends.fromisoformat svc (Trends.index_isoformat row) = Ret dt)
    rows dts ->
  exists top_hour top_day,
    Trends.get_trends svc keyword timeframe geo =
      Ret (Trends.TrendsResponse keyword (map Trends.point_of rows) top_hour top_day) /\
    top_hour ∈ Trends.hour <$> dts /\
    top_day ∈ Trends.day_name <$> dts /\
    (forall dt, dt ∈ dts ->
       Props.total (Trends.hour dt) (zip (Trends.hour <$> dts) (Trends.row_value <$> rows))
       <= Props.total top_hour (zip (Trends.hour <$> dts) (Trends.row_value <$> rows))) /\
    (forall dt, dt ∈ dts ->
       Props.total (Trends.day_name dt)
         (zip (Trends.day_name <$> dts) (Trends.row_value <$> rows))
       <= Props.total top_day (zip (Trends.day_name <$> dts) (Trends.row_value <$> rows))).
Proof.
  intros Hdata Hrows Hdts.
  pose proof (Forall2_length _ _ _ Hdts) as Hlen.
  assert (dts <> []) as Hne by (destruct rows, dts; done).
  set (hs := zip (Trends.hour <$> dts) (Trends.row_value <$> rows)).
  set (ds := zip (Trends.day_name <$> dts) (Trends.row_value <$> rows)).
  assert (hs.*1 = Trends.hour <$> dts) as Hhs
    by (apply zip_keys; by rewrite !length_fmap).
  assert (ds.*1 = Trends.day_name <$> dts) as Hds
    by (apply zip_keys; by rewrite !length_fmap).
  assert (forall k, k ∈ (Props.tally hs []).*1 <-> k ∈ Trends.hour <$> dts) as Hkh.
  { intros k. rewrite tally_keys, Hhs, fmap_nil, elem_of_nil. tauto. }
  assert (forall k, k ∈ (Props.tally ds []).*1 <-> k ∈ Trends.day_name <$> dts) as Hkd.
  { intros k. rewrite tally_keys, Hds, fmap_nil, elem_of_nil. tauto. }
  destruct (max_key_greatest (Props.tally hs [])) as (top_hour & Hth & Hinh & Hmaxh).
  { destruct dts as [|dt dts]; [done|]. intros Hnil.
    assert (Trends.hour dt ∈ (Props.tally hs []).*1) as Hin
      by (apply Hkh; rewrite fmap_cons; by left).
    rewrite Hnil in Hin. by apply elem_of_nil in Hin. }
  { apply tally_NoDup. rewrite fmap_nil. apply NoDup_nil_2. }
  destruct (max_key_greatest (Props.tally ds [])) as (top_day & Htd & Hind & Hmaxd).
  { destruct dts as [|dt dts]; [done|]. intros Hnil.
    assert (Trends.day_name dt ∈ (Props.tally ds []).*1) as Hin
      by (apply Hkd; rewrite fmap_cons; by left).
    rewrite Hnil in Hin. by apply elem_of_nil in Hin. }
  { apply tally_NoDup. rewrite fmap_nil. apply NoDup_nil_2. }
  exists top_hour, top_day. split; [|split; [by apply Hkh | split; [by apply Hkd | split]]].
  - unfold Trends.get_trends. rewrite Hdata. cbn [Trends.and_then].
    destruct rows as [|row rows]; [done|].
    rewrite (aggregate_tally _ _ _ _ Hdts). cbn [Trends.and_then fst snd].
    fold hs ds. rewrite Hth. cbn [Trends.and_then]. by rewrite Htd.
  - intros dt Hdt.
    specialize (Hmaxh (Trends.hour dt)
                  ltac:(apply Hkh, list_elem_of_fmap; by exists dt)).
    rewrite !tally_value in Hmaxh. cbn [Props.value_of] in Hmaxh. lia.
  - intros dt Hdt.
    specialize (Hmaxd (Trends.day_name dt)
                  ltac:(apply Hkd, list_elem_of_fmap; by exists dt)).
    rewrite !tally_value in Hmaxd. cbn [Props.value_of] in Hmaxd. lia.
Qed.

End TrendsService.

Lemma top_hour_and_day_are_maximal_witness :
  exists top_hour top_day,
    Trends.get_trends MoreExamples.week "phone" "now 7-d" (Some "IR") =
      Ret (Trends.TrendsResponse "phone" (map Trends.point_of MoreExamples.week_rows)
             top_hour top_day) /\
    top_hour ∈ Trends.hour <$> MoreExamples.week_dates /\
    top_day ∈ Trends.day_name <$> MoreExamples.week_dates /\
    (forall dt, dt ∈ MoreExamples.week_dates ->
       Props.total (Trends.hour dt)
         (zip (Trends.hour <$> MoreExamples.week_dates)
              (Trends.row_value <$> MoreExamples.week_rows))
       <= Props.total top_hour
            (zip (Trends.hour <$> MoreExamples.week_dates)
                 (Trends.row_value <$> MoreExamples.week_rows))) /\
    (forall dt, dt ∈ MoreExamples.week_dates ->
       Props.total (Trends.day_name dt)
         (zip (Trends.day_name <$> MoreExamples.week_dates)
              (Trends.row_value <$> MoreExamples.week_rows))
       <= Props.total top_day
            (zip (Trends.day_name <$> MoreExamples.week_dates)
                 (Trends.row_value <$> MoreExamples.week_rows))).
Proof.
  apply (top_hour_and_day_are_maximal MoreExamples.week "phone" "now 7-d" (Some "IR")
           MoreExamples.week_rows MoreExamples.week_dates).
  - reflexivity.
  - discriminate.
  - repeat constructor.
Defined.

(** * What a run of the pipeline costs *)

Section RequestCount.

Context (w : World) (exts : list string).




End RequestCount.

Section PipelineCost.

Context (w : World) (query : string)
  (extra_terms preferred_extensions : option (list string)) (max_results : Z).

Local Abbreviation exts := (default default_extensions preferred_extensions).
Local Abbreviation enriched := (enriched_query query (default [] extra_terms)).


End PipelineCost.


(** * Failures of the search route *)

Section SearchRouteFailures.

Context (env : Pages.Environment) (svc : LLM.Service) (w : World).


End SearchRouteFailures.

